(** * paropt-service-sdk: the command line client and its credential manager

    A shallow embedding of [paropt_cli.py] (the polling wait loop and the
    main workflow) and of [paropt_sdk/utils/auth.py] (login, logout, token
    storage), with the properties of the specification stated over it.

    Python values decoded from JSON or YAML are the inductive type [json];
    exceptions are the inductive type [exn]; a computation that prints,
    sleeps and calls the remote service is a pair of the events it emitted
    and its result (monad [M]); the credential manager threads the local
    configuration store through a state monad ([Auth.A]). *)

From Stdlib Require Import ZArith QArith String List Lia Lqa Ascii DecimalString.
From stdpp Require Import gmap strings.

#[local] Set Warnings "-register-all".
Local Open Scope string_scope.
Local Open Scope list_scope.
Local Open Scope Z_scope.
Import ListNotations.

(* ================================================================== *)
(** * Python values and exceptions                                     *)
(* ================================================================== *)

(** The values [response.data], [yaml.load] and [json.loads] hand to the
    program.  A mapping keeps its keys in insertion order, as a Python
    [dict] does when it is iterated.  Numbers are the integers. *)
Inductive json : Type :=
| JNull
| JBool (b : bool)
| JInt (n : Z)
| JStr (s : string)
| JList (l : list json)
| JDict (d : list (string * json)).

(** The exceptions the two source files can end with.  [PyException] is
    [Exception(msg)] with a literal message; [TrialFailed] and
    [ServerFailed] are the two [Exception]s whose message is formatted from
    a payload, which they carry; [Other] stands for whatever a collaborator
    (the API client, a parser) raises on its own. *)
Inductive exn : Type :=
| NameError (name : string)
| TypeError
| KeyError (key : string)
| AttributeError (attr : string)
| ValueError
| OSError (path : string)
| NetworkError
| PyException (msg : string)
| TrialFailed (data : json)
| ServerFailed (info : json)
| Other (what : string).

(** How a computation ends: with a value, with an exception, through
    [sys.exit], or (for the model of the [while] loop only) still running
    when the iterations the model was given are used up. *)
Inductive res (A : Type) : Type :=
| Ok (a : A)
| Raise (e : exn)
| SysExit (code : Z)
| OutOfFuel.
Arguments Ok {A} a.
Arguments Raise {A} e.
Arguments SysExit {A} code.
Arguments OutOfFuel {A}.

(** [d.get(key)] on the association list of a mapping. *)
Fixpoint assoc (key : string) (d : list (string * json)) : option json :=
  match d with
  | [] => None
  | (k, v) :: rest => if String.eqb k key then Some v else assoc key rest
  end.

(** Python's [==] on decoded values: [True == 1], lists element by element,
    mappings key by key whatever the order. *)
Fixpoint py_eq (x y : json) {struct x} : bool :=
  match x, y with
  | JNull, JNull => true
  | JBool a, JBool b => Bool.eqb a b
  | JBool a, JInt n => n =? Z.b2z a
  | JInt n, JBool a => n =? Z.b2z a
  | JInt a, JInt b => a =? b
  | JStr a, JStr b => String.eqb a b
  | JList a, JList b =>
      (fix all2 (a b : list json) {struct a} : bool :=
         match a, b with
         | [], [] => true
         | u :: a', v :: b' => py_eq u v && all2 a' b'
         | _, _ => false
         end) a b
  | JDict a, JDict b =>
      Nat.eqb (List.length a) (List.length b)
      && (fix sub (a : list (string * json)) {struct a} : bool :=
            match a with
            | [] => true
            | (k, u) :: a' =>
                match assoc k b with
                | Some v => py_eq u v && sub a'
                | None => false
                end
            end) a
  | _, _ => false
  end.

(** Python's truth value: [None], [False], [0] and the empty string, list
    and mapping are false. *)
Definition truthy (v : json) : bool :=
  match v with
  | JNull => false
  | JBool b => b
  | JInt n => negb (n =? 0)
  | JStr s => negb (String.eqb s "")
  | JList l => match l with [] => false | _ => true end
  | JDict d => match d with [] => false | _ => true end
  end.

(** [isinstance(v, list)]. *)
Definition is_list (v : json) : bool :=
  match v with JList _ => true | _ => false end.

(** [v[key]] with a string key: a mapping looks the key up, every other
    value refuses a string subscript. *)
Definition subscript (v : json) (key : string) : res json :=
  match v with
  | JDict d => match assoc key d with
               | Some x => Ok x
               | None => Raise (KeyError key)
               end
  | _ => Raise TypeError
  end.

(** [v.get(key, default)]: only a mapping has the method. *)
Definition get_default (v : json) (key : string) (default : json) : res json :=
  match v with
  | JDict d => match assoc key d with
               | Some x => Ok x
               | None => Ok default
               end
  | _ => Raise (AttributeError "get")
  end.

(** The one-character strings a [for] loop draws from a string. *)
Fixpoint chars (s : string) : list json :=
  match s with
  | EmptyString => []
  | String c rest => JStr (String c EmptyString) :: chars rest
  end.

(** [iter(v)]: the items a [for] loop over [v] visits. *)
Definition py_iter (v : json) : res (list json) :=
  match v with
  | JList l => Ok l
  | JDict d => Ok (map (fun kv => JStr (fst kv)) d)
  | JStr s => Ok (chars s)
  | _ => Raise TypeError
  end.

(** [s.endswith(suffix)]. *)
Definition endswith (s suffix : string) : bool :=
  let n := String.length s in
  let m := String.length suffix in
  Nat.leb m n && String.eqb (substring (n - m)%nat m s) suffix.

(** [str(n)] for an integer, as an f-string renders it. *)
Definition str_of_int (n : Z) : string := NilZero.string_of_int (Z.to_int n).

(** [<] on clock readings. *)
Definition Qltb (x y : Q) : bool :=
  Qnum x * Zpos (Qden y) <? Qnum y * Zpos (Qden x).

(* ================================================================== *)
(** * Computations with output                                         *)
(* ================================================================== *)

(** A response of the remote service: [http_status] and [data]. *)
Record response : Type := mkResponse { http_status : Z; data : json }.

(** What the program does to the outside, in order. *)
Inductive event : Type :=
| Print (line : string)
| PrintResponse (r : response)
| PrintDir (r : response)
| Sleep (secs : Z)
| OpenFile (path : string)
| NewClient
| CallGetOrCreateExperiment (doc : json)
| CallRunTrial (exp_id : json) (doc : json)
| CallGetRunningExperiments
| CallGetFailedExperiments.

Definition M (A : Type) : Type := (list event * res A)%type.

Definition ret {A} (a : A) : M A := ([], Ok a).

Definition bind {A B} (m : M A) (f : A -> M B) : M B :=
  match m with
  | (t, Ok a) => let '(t', r) := f a in (t ++ t', r)
  | (t, Raise e) => (t, Raise e)
  | (t, SysExit c) => (t, SysExit c)
  | (t, OutOfFuel) => (t, OutOfFuel)
  end.

Declare Scope cli_scope.
Notation "'let*' x := c 'in' k" := (bind c (fun x => k))
  (at level 10, x name, c at level 100, k at level 200) : cli_scope.
Notation "c >> k" := (bind c (fun _ => k))
  (at level 62, right associativity) : cli_scope.
Local Open Scope cli_scope.

Definition emit (e : event) : M unit := ([e], Ok tt).
Definition print (line : string) : M unit := emit (Print line).
Definition raise {A} (e : exn) : M A := ([], Raise e).
Definition lift {A} (r : res A) : M A := ([], r).

(** [try: body except: print("---- Error ----"); raise]: the bare [except]
    also catches [SystemExit]. *)
Definition try_banner {A} (body : M A) : M A :=
  match body with
  | (t, Raise e) => (t ++ [Print "---- Error ----"], Raise e)
  | (t, SysExit c) => (t ++ [Print "---- Error ----"], SysExit c)
  | other => other
  end.

(* ================================================================== *)
(** * The outside world of the command line client                     *)
(* ================================================================== *)

(** What a call to a collaborator gives back. *)
Inductive outcome (A : Type) : Type :=
| Returns (a : A)
| Raises (e : exn).
Arguments Returns {A} a.
Arguments Raises {A} e.

Definition call {A} (ev : list event) (o : outcome A) : M A :=
  match o with
  | Returns a => (ev, Ok a)
  | Raises e => (ev, Raise e)
  end.

(** Modelled from the spec: the API client [paropt_sdk.client.ParoptClient]
    is not part of the sources at hand.  Section 6 of the specification
    gives its surface: [getOrCreateExperiment(doc)], [runTrial(experiment_id,
    optimizer_doc)], [getRunningExperiments()] and [getFailedExperiments()],
    each answering with a status code and a payload.  The answers are the
    remote service's, so they are fields of the world the program runs in,
    together with the system clock, the file system and the two parsers.
    [time_time n] is the [n]-th reading of [time.time()], in seconds;
    [getRunningExperiments k] is the answer to the [k]-th poll. *)
Record world : Type := mkWorld {
  time_time : nat -> Q;
  open_file : string -> outcome string;
  yaml_load : string -> outcome json;
  json_loads : string -> outcome json;
  ParoptClient : outcome unit;
  getOrCreateExperiment : json -> outcome response;
  runTrial : json -> json -> outcome response;
  getRunningExperiments : nat -> outcome response;
  getFailedExperiments : outcome response
}.

(* ================================================================== *)
(** * paropt_cli.py                                                    *)
(* ================================================================== *)

Module Cli.

Definition FILE_TYPE_MSG : string :=
  "Files provided must end with .yaml, .yml, or .json".
Definition SECONDS_IN_DAY : Z := 86400.
Definition MAX_FAILS : Z := 3.

Definition printResponse (r : response) : M unit := emit (PrintResponse r).

(** Determines if response status code is in ok range. *)
Definition httpOK (r : response) : bool :=
  (200 <=? http_status r) && (http_status r <=? 299).

(** [time.sleep(secs)] refuses a negative length. *)
Definition time_sleep (secs : Z) : M unit :=
  if secs <? 0 then raise ValueError else emit (Sleep secs).

(** The local variables of [waitForJob]. *)
Record wait_locals : Type := mkLocals {
  job_id : json;
  sleep_interval : Z;
  timeout : Q;
  sleep_interval_secs : Z;
  n_fails : Z
}.

(** [n_fails += 1]. *)
Definition count_fail (st : wait_locals) : wait_locals :=
  {| job_id := job_id st;
     sleep_interval := sleep_interval st;
     timeout := timeout st;
     sleep_interval_secs := sleep_interval_secs st;
     n_fails := n_fails st + 1 |}.

(** Lines 77-81: [running] after the [for] loop with its [break]. *)
Fixpoint job_running (id : json) (running_jobs : list json) : M bool :=
  match running_jobs with
  | [] => ret false
  | job :: rest =>
      let* j := lift (subscript job "job_id") in
      if py_eq j id then ret true else job_running id rest
  end.

(** How one pass through the body of the [while] loop ends. *)
Inductive ctl : Type :=
| Continue (st : wait_locals)
| Return (b : bool).

(** Lines 59-86: the body of the [while] loop, at its [k]-th pass. *)
Definition wait_body (w : world) (k : nat) (st : wait_locals) : M ctl :=
  print ("Job running, going to sleep for "
         ++ str_of_int (sleep_interval st) ++ " minutes...")%string >>
  time_sleep (sleep_interval_secs st) >>
  let* running_res := call [CallGetRunningExperiments] (getRunningExperiments w k) in
  let running_jobs := data running_res in
  if negb (httpOK running_res) then
    print "WARNING: Expected running jobs response to be ok:" >>
    printResponse running_res >>
    ret (Continue (count_fail st))
  else
    match running_jobs with
    | JList jobs =>
        let* running := job_running (job_id st) jobs in
        if negb running then
          print "Job finished running" >>
          ret (Return true)
        else ret (Continue st)
    | _ =>
        print "WARNING: Expected running jobs response to be a list:" >>
        printResponse running_res >>
        ret (Continue (count_fail st))
    end.

(** Line 58: [time.time() < timeout and n_fails < MAX_FAILS], the clock
    being read for the [(k+1)]-th time. *)
Definition wait_guard (w : world) (k : nat) (st : wait_locals) : bool :=
  Qltb (time_time w (S k)) (timeout st) && (n_fails st <? MAX_FAILS).

(** Lines 88-92. *)
Definition wait_failed (st : wait_locals) : M bool :=
  if n_fails st =? MAX_FAILS then
    raise (PyException "Failed to wait for job: Too may failed calls/responses to api")
  else
    raise (PyException "Failed to wait for job: Reached maximum timeout").

(** Lines 58-92.  [fuel] bounds the number of times the guard is
    evaluated; when it is used up the loop is still running. *)
Fixpoint wait_loop (w : world) (fuel : nat) (k : nat) (st : wait_locals)
  : M bool :=
  match fuel with
  | O => lift OutOfFuel
  | S fuel' =>
      if wait_guard w k st then
        let* c := wait_body w k st in
        match c with
        | Continue st' => wait_loop w fuel' (S k) st'
        | Return b => ret b
        end
      else wait_failed st
  end.

(** Lines 50-53. *)
Definition deadline (now : Q) (max_wait : Z) : Q :=
  if max_wait <? 0 then (now + inject_Z SECONDS_IN_DAY)%Q
  else (now + inject_Z (max_wait * 60))%Q.

(** Lines 50-56. *)
Definition wait_init (w : world) (id : json) (max_wait sleep_interval : Z)
  : wait_locals :=
  {| job_id := id;
     sleep_interval := sleep_interval;
     timeout := deadline (time_time w 0) max_wait;
     sleep_interval_secs := sleep_interval * 60;
     n_fails := 0 |}.

(** Wait for job to finish.  Raises exception if timesout or fails to get
    response too many times. *)
Definition waitForJob (w : world) (id : json) (max_wait sleep_interval : Z)
    (fuel : nat) : M bool :=
  wait_loop w fuel 0 (wait_init w id max_wait sleep_interval).

(** The default of the parameter [sleep_interval] of [waitForJob]. *)
Definition sleep_interval_default : Z := 1.

(** Get the given json or yaml file as a dict. *)
Definition loadYmlJson (w : world) (file_path : string) : M json :=
  let* f := call [OpenFile file_path] (open_file w file_path) in
  if endswith file_path ".yaml" || endswith file_path ".yml" then
    call [] (yaml_load w f)
  else if endswith file_path ".json" then
    call [] (json_loads w f)
  else ret JNull.

(** The parsed command line. *)
Record args : Type := mkArgs {
  experiment : string;
  optimizer : string;
  maxwait : Z;
  sleepdur : Z
}.

Definition sys_exit {A} (code : Z) : M A := ([], SysExit code).

(** Lines 170-173: the [for] loop over the failed experiments. *)
Fixpoint raise_if_failed (submitted_job_id : json) (exps : list json)
  : M unit :=
  match exps with
  | [] => ret tt
  | exp :: rest =>
      let* j := lift (subscript exp "job_id") in
      if py_eq j submitted_job_id then
        let* info := lift (get_default exp "job_exc_info" (JStr "")) in
        raise (ServerFailed info)
      else raise_if_failed submitted_job_id rest
  end.

(** Lines 163-174: the check that follows the wait. *)
Definition check_job_successful (w : world) (submitted_job_id : json)
  : M unit :=
  print "---- Checking if job was successful ----" >>
  let* res := call [CallGetFailedExperiments] (getFailedExperiments w) in
  let failed_experiments := data res in
  (if negb (httpOK res) then
     print "Unable to get failed experiments, skipping..."
   else ret tt) >>
  (if negb (is_list failed_experiments) then
     print "Expected response to be list, skipping..."
   else ret tt) >>
  let* exps := lift (py_iter failed_experiments) in
  raise_if_failed submitted_job_id exps >>
  print "Successfully ran optimizations".

(** Lines 137-178: the body of the [try]. *)
Definition workflow (w : world) (a : args) (experiment optimizer : json)
    (fuel : nat) : M unit :=
  print "---- Creating client ----" >>
  call [NewClient] (ParoptClient w) >>
  print "---- Creating/getting experiment ----" >>
  let* exp_res := call [CallGetOrCreateExperiment experiment]
                       (getOrCreateExperiment w experiment) in
  emit (PrintDir exp_res) >>
  printResponse exp_res >>
  (if negb (httpOK exp_res) then
     raise (PyException "Failed to create experiment (status code not ok)")
   else ret tt) >>
  let exp_data := data exp_res in
  let* exp_id := lift (get_default exp_data "id" JNull) in
  (if negb (truthy exp_id) then
     raise (PyException "Expected experiment response to contain 'id'")
   else ret tt) >>
  print "---- Running job ----" >>
  let* trial_res := call [CallRunTrial exp_id optimizer]
                         (runTrial w exp_id optimizer) in
  printResponse trial_res >>
  (if negb (httpOK trial_res) then raise (TrialFailed (data trial_res))
   else ret tt) >>
  let trial_data := data trial_res in
  let* job := lift (get_default trial_data "job" (JDict [])) in
  let* submitted_job_id := lift (get_default job "job_id" JNull) in
  print "---- Starting to wait for job to finish ----" >>
  (if negb (maxwait a =? 0) then
     waitForJob w submitted_job_id (maxwait a) sleep_interval_default fuel >>
     check_job_successful w submitted_job_id
   else
     print "Max wait == 0, not waiting for job to finish...") >>
  print "---- Finished ----".

(** Lines 104-182: the program run on a parsed command line. *)
Definition main (w : world) (a : args) (fuel : nat) : M unit :=
  let* experiment := loadYmlJson w (experiment a) in
  (if py_eq experiment JNull then print FILE_TYPE_MSG >> sys_exit 1
   else ret tt) >>
  let* optimizer := loadYmlJson w (optimizer a) in
  (if py_eq optimizer JNull then print FILE_TYPE_MSG >> sys_exit 1
   else ret tt) >>
  try_banner (workflow w a experiment optimizer fuel).

End Cli.

(* ================================================================== *)
(** * paropt_sdk/utils/auth.py                                         *)
(* ================================================================== *)

Module Auth.

(** Modelled from the spec: the module [paropt_sdk.config] is not part of
    the sources at hand.  The specification describes it as a local store
    with [get], [set] and [delete] over three named options (refresh token,
    access token, access token expiry), printed warnings, and the auth
    client of the identity provider.  The three option names, the answers
    of the identity provider and what the user types are fields of the
    environment; [oauth2_revoke_token n t] is the answer to the [n]-th
    revocation request, made for the token [t].  [str_strip s] is
    [s.strip()], Python's own, applied to the line typed. *)
Record env : Type := mkEnv {
  PAROPT_RT_OPTNAME : string;
  PAROPT_AT_OPTNAME : string;
  PAROPT_AT_EXPIRES_OPTNAME : string;
  platform_node : string;
  oauth2_get_authorize_url : string;
  input : string;
  str_strip : string -> string;
  oauth2_exchange_code_for_tokens : string -> outcome json;
  oauth2_revoke_token : nat -> json -> outcome unit
}.

(** The state the credential manager acts on: the local store, the
    revocation requests sent so far, the lines printed by [safeprint], and
    the parameters of the authorization flow once it is started. *)
Record state : Type := mkState {
  store : gmap string json;
  revocations : list json;
  printed : list string;
  flow : option (json * json)
}.

Definition A (X : Type) : Type := state -> res X * state.

Definition ret {X} (x : X) : A X := fun s => (Ok x, s).

Definition bind {X Y} (m : A X) (f : X -> A Y) : A Y :=
  fun s =>
    match m s with
    | (Ok x, s') => f x s'
    | (Raise e, s') => (Raise e, s')
    | (SysExit c, s') => (SysExit c, s')
    | (OutOfFuel, s') => (OutOfFuel, s')
    end.

Declare Scope auth_scope.
Notation "'let*' x := c 'in' k" := (bind c (fun x => k))
  (at level 10, x name, c at level 100, k at level 200) : auth_scope.
Notation "c >> k" := (bind c (fun _ => k))
  (at level 62, right associativity) : auth_scope.
Local Open Scope auth_scope.

Definition raise {X} (e : exn) : A X := fun s => (Raise e, s).
Definition lift {X} (r : res X) : A X := fun s => (r, s).

Definition safeprint (line : string) : A unit :=
  fun s => (Ok tt, {| store := store s;
                      revocations := revocations s;
                      printed := printed s ++ [line];
                      flow := flow s |}).

Definition set_store (m : gmap string json) (s : state) : state :=
  {| store := m;
     revocations := revocations s;
     printed := printed s;
     flow := flow s |}.

(** [lookup_option(name)]: the stored value, [None] when there is none. *)
Definition lookup_option (name : string) : A json :=
  fun s => (Ok (default JNull (store s !! name)), s).

Definition write_option (name : string) (value : json) : A unit :=
  fun s => (Ok tt, set_store (<[name := value]> (store s)) s).

Definition remove_option (name : string) : A unit :=
  fun s => (Ok tt, set_store (delete name (store s)) s).

Definition call {X} (o : outcome X) : A X :=
  match o with
  | Returns x => ret x
  | Raises e => raise e
  end.

(** [native_client.oauth2_revoke_token(token)]: the request is sent, the
    identity provider's answer decides whether the call returns. *)
Definition revoke_token (e : env) (token : json) : A unit :=
  fun s =>
    let n := List.length (revocations s) in
    let s' := {| store := store s;
                 revocations := revocations s ++ [token];
                 printed := printed s;
                 flow := flow s |} in
    call (oauth2_revoke_token e n token) s'.

(** [native_client.oauth2_start_flow(requested_scopes=..,
    refresh_tokens=True, prefill_named_grant=..)]. *)
Definition oauth2_start_flow (requested_scopes label : json) : A unit :=
  fun s => (Ok tt, {| store := store s;
                      revocations := revocations s;
                      printed := printed s;
                      flow := Some (requested_scopes, label) |}).

(** [try: body except globus_sdk.NetworkError: handler]. *)
Definition except_NetworkError {X} (body handler : A X) : A X :=
  fun s =>
    match body s with
    | (Raise NetworkError, s') => handler s'
    | other => other
    end.

Definition nl : string := String (ascii_of_nat 10) EmptyString.
Definition dquote : string := String (ascii_of_nat 34) EmptyString.

(** [c * n] for a one-character string. *)
Fixpoint repeat_string (c : string) (n : nat) : string :=
  match n with
  | O => EmptyString
  | S n' => (c ++ repeat_string c n')%string
  end.

(** The names bound to data at the top level of [auth.py]: the three
    option names it imports.  Every other top-level name is a module or a
    function. *)
Definition module_constants (e : env) : list (string * json) :=
  [ ("PAROPT_RT_OPTNAME", JStr (PAROPT_RT_OPTNAME e));
    ("PAROPT_AT_OPTNAME", JStr (PAROPT_AT_OPTNAME e));
    ("PAROPT_AT_EXPIRES_OPTNAME", JStr (PAROPT_AT_EXPIRES_OPTNAME e)) ].

(** Reading a name inside a function: its local variables, then the
    module's; a name bound in neither is a [NameError]. *)
Definition load_name (e : env) (locals : list (string * json))
    (name : string) : A json :=
  match assoc name locals with
  | Some v => ret v
  | None =>
      match assoc name (module_constants e) with
      | Some v => ret v
      | None => raise (NameError name)
      end
  end.

(** Revoke the tokens associated with a particular scope. *)
Fixpoint revoke_each (e : env) (token_opts : list string) : A unit :=
  match token_opts with
  | [] => ret tt
  | token_opt :: rest =>
      let* token := lookup_option token_opt in
      (if truthy token then revoke_token e token else ret tt) >>
      revoke_each e rest
  end.

Definition _revoke_current_tokens (e : env) : A unit :=
  revoke_each e [PAROPT_RT_OPTNAME e; PAROPT_AT_OPTNAME e].

(** Store the tokens on disk. *)
Definition _store_config (e : env) (token_response : json) : A unit :=
  let tkn := token_response in
  let* service := lift (subscript tkn "paropt_service") in
  let* paropt_at := lift (subscript service "access_token") in
  let* service := lift (subscript tkn "paropt_service") in
  let* paropt_rt := lift (subscript service "refresh_token") in
  let* service := lift (subscript tkn "paropt_service") in
  let* paropt_at_expires := lift (subscript service "expires_at_seconds") in
  write_option (PAROPT_RT_OPTNAME e) paropt_rt >>
  write_option (PAROPT_AT_OPTNAME e) paropt_at >>
  write_option (PAROPT_AT_EXPIRES_OPTNAME e) paropt_at_expires.

(** Lines 33-37 of [do_login_flow]: the code is read ([input e] is the
    line typed at the prompt) and stripped, exchanged for tokens, the
    stored tokens are revoked and the new ones stored. *)
Definition finish_login_flow (e : env) : A unit :=
  let auth_code := str_strip e (input e) in
  let* tkn := call (oauth2_exchange_code_for_tokens e auth_code) in
  _revoke_current_tokens e >>
  _store_config e tkn.

(** Do the globus native client login flow.  Saves the token received by
    the client to the Globus configuration file. *)
Definition do_login_flow (e : env) : A unit :=
  let label := if String.eqb (platform_node e) "" then JNull
               else JStr (platform_node e) in
  let PAROPT_SCOPE :=
    JStr "https://auth.globus.org/scopes/81fc4156-a623-47f2-93ad-7184118226ba/auth" in
  let locals := [("label", label); ("PAROPT_SCOPE", PAROPT_SCOPE)] in
  let* requested_scopes := load_name e locals "FUNCX_SCOPE" in
  oauth2_start_flow requested_scopes label >>
  let linkprompt := "Please log into Globus here" in
  let rule := repeat_string "-" (String.length linkprompt) in
  safeprint (linkprompt ++ ":" ++ nl ++ rule ++ nl
             ++ oauth2_get_authorize_url e ++ nl ++ rule ++ nl)%string >>
  finish_login_flow e.

(** How one pass through the [for] loop of [logout] ends. *)
Inductive loop_ctl : Type :=
| LoopNext
| LoopReturn.

(** Lines 75-92: the body of the [for] loop of [logout]. *)
Definition logout_token (e : env) (token_opt : string) : A loop_ctl :=
  let* token := lookup_option token_opt in
  if negb (truthy token) then
    safeprint ("Warning: Found no token named " ++ dquote ++ token_opt
               ++ dquote ++ "! Recommend rescinding consent")%string >>
    ret LoopNext
  else
    let* c := except_NetworkError
                (revoke_token e token >> ret LoopNext)
                (safeprint ("Failed to reach Globus to revoke tokens. "
                            ++ "Because we cannot revoke these tokens, cancelling "
                            ++ "logout")%string >>
                 ret LoopReturn) in
    match c with
    | LoopReturn => ret LoopReturn
    | LoopNext => remove_option token_opt >> ret LoopNext
    end.

Fixpoint logout_each (e : env) (token_opts : list string) : A loop_ctl :=
  match token_opts with
  | [] => ret LoopNext
  | token_opt :: rest =>
      let* c := logout_token e token_opt in
      match c with
      | LoopReturn => ret LoopReturn
      | LoopNext => logout_each e rest
      end
  end.

(** Remove Globus credentials from configuration file and revokes their
    authorization. *)
Definition logout (e : env) : A unit :=
  let* c := logout_each e [PAROPT_RT_OPTNAME e; PAROPT_AT_OPTNAME e] in
  match c with
  | LoopReturn => ret tt
  | LoopNext => remove_option (PAROPT_AT_EXPIRES_OPTNAME e)
  end.

End Auth.

(* ================================================================== *)
(** * Vocabulary of the specification of the poller                    *)
(* ================================================================== *)

Module Poller.
Import Cli.

(** The number of polls of the running-job list in a run. *)
Fixpoint polls_made (t : list event) : nat :=
  match t with
  | [] => O
  | CallGetRunningExperiments :: t' => S (polls_made t')
  | _ :: t' => polls_made t'
  end.

(** The lengths of the sleeps of a run, in seconds. *)
Fixpoint sleeps (t : list event) : list Z :=
  match t with
  | [] => []
  | Sleep secs :: t' => secs :: sleeps t'
  | _ :: t' => sleeps t'
  end.

(** What the [k]-th pass through the loop observes, read off the world:
    a soft failure, the job still in the list, the job gone from the list,
    or an exception (of the sleep, of the query, or of the scan of a list
    whose records are not as expected). *)
Inductive observation : Type :=
| SoftFailure
| StillRunning
| Finished
| Crashed (e : exn).

Definition observe (w : world) (id : json) (sleep_interval : Z) (k : nat)
  : observation :=
  if sleep_interval * 60 <? 0 then Crashed ValueError
  else
    match getRunningExperiments w k with
    | Raises e => Crashed e
    | Returns r =>
        if negb (httpOK r) then SoftFailure
        else
          match data r with
          | JList jobs =>
              match snd (job_running id jobs) with
              | Ok true => StillRunning
              | Ok false => Finished
              | Raise e => Crashed e
              | _ => Crashed (Other "unreachable")
              end
          | _ => SoftFailure
          end
    end.

(** The pass neither leaves the loop nor counts anything else than a soft
    failure. *)
Definition keeps_waiting (o : observation) : bool :=
  match o with
  | SoftFailure | StillRunning => true
  | _ => false
  end.

(** The soft failures among the first [k] polls. *)
Fixpoint soft_failures (w : world) (id : json) (sleep_interval : Z)
    (k : nat) : Z :=
  match k with
  | O => 0
  | S k' =>
      soft_failures w id sleep_interval k'
      + match observe w id sleep_interval k' with
        | SoftFailure => 1
        | _ => 0
        end
  end.

(** The local variables on arrival at the guard for the [(k+n)]-th time,
    when the loop, entered at its [k]-th pass with [st], gets there. *)
Fixpoint locals_after (w : world) (k : nat) (st : wait_locals) (n : nat)
  : option wait_locals :=
  match n with
  | O => Some st
  | S n' =>
      if wait_guard w k st then
        match snd (wait_body w k st) with
        | Ok (Continue st') => locals_after w (S k) st' n'
        | _ => None
        end
      else None
  end.

(** Line 55 holds of the local variables. *)
Definition coherent (st : wait_locals) : Prop :=
  sleep_interval_secs st = sleep_interval st * 60.

Definition too_many_failed_calls : exn :=
  PyException "Failed to wait for job: Too may failed calls/responses to api".
Definition reached_maximum_timeout : exn :=
  PyException "Failed to wait for job: Reached maximum timeout".

End Poller.

(* ================================================================== *)
(** * Vocabulary of the specification of the workflow                  *)
(* ================================================================== *)

Module Inputs.
Import Cli.

(** The file has one of the extensions [loadYmlJson] accepts and the
    parser chosen for it returns [None]. *)
Definition parses_to_null (w : world) (path content : string) : Prop :=
  ((endswith path ".yaml" || endswith path ".yml") = true
   /\ yaml_load w content = Returns JNull)
  \/ ((endswith path ".yaml" || endswith path ".yml") = false
      /\ endswith path ".json" = true
      /\ json_loads w content = Returns JNull).

(** The file has none of the three extensions. *)
Definition unsupported (path : string) : Prop :=
  endswith path ".yaml" = false
  /\ endswith path ".yml" = false
  /\ endswith path ".json" = false.

(** The payload is not a list, and is neither the empty string nor the
    empty mapping: [None], a truth value, a number, or a string or a
    mapping with something in it. *)
Definition breaks_the_loop (v : json) : Prop :=
  match v with
  | JList _ => False
  | JStr EmptyString => False
  | JDict [] => False
  | _ => True
  end.

End Inputs.

(* ================================================================== *)
(** * Scenarios                                                        *)
(* ================================================================== *)

Module Scenarios.
Import Cli.

Definition ok_list (jobs : list json) : outcome response :=
  Returns {| http_status := 200; data := JList jobs |}.

Definition job_record (id : string) : json := JDict [("job_id", JStr id)].

(** A service that creates the experiment [exp1] and the job [job1], and
    whose files are YAML mappings; the clock and the answers to the polls
    are left to each scenario. *)
Definition service (clock : nat -> Q) (polls : nat -> outcome response)
  : world :=
  {| time_time := clock;
     open_file := fun _ => Returns "name: demo";
     yaml_load := fun _ => Returns (JDict [("name", JStr "demo")]);
     json_loads := fun _ => Returns (JDict [("name", JStr "demo")]);
     ParoptClient := Returns tt;
     getOrCreateExperiment := fun _ =>
       Returns {| http_status := 200; data := JDict [("id", JStr "exp1")] |};
     runTrial := fun _ _ =>
       Returns {| http_status := 200;
                  data := JDict [("job", job_record "job1")] |};
     getRunningExperiments := polls;
     getFailedExperiments := ok_list [] |}.

(** The clock reads one minute more at every reading. *)
Definition minute_clock (n : nat) : Q := inject_Z (60 * Z.of_nat n).

(** Every poll is answered with status 500. *)
Definition w_down : world :=
  service minute_clock
          (fun _ => Returns {| http_status := 500; data := JNull |}).

(** The job never leaves the running list. *)
Definition w_stuck : world :=
  service minute_clock (fun _ => ok_list [job_record "job1"]).

(** The job is gone from the list at the third poll. *)
Definition w_done_at_third : world :=
  service minute_clock
          (fun k => match k with
                    | 0%nat | 1%nat => ok_list [job_record "job1"]
                    | _ => ok_list [job_record "job2"]
                    end).

(** Soft failures at the polls 0, 2 and 4, the job running in between. *)
Definition w_flaky : world :=
  service minute_clock
          (fun k => if Nat.even k
                    then Returns {| http_status := 503; data := JStr "busy" |}
                    else ok_list [job_record "job1"]).

(** The query of the failed experiments is answered with the given
    response; the job is gone from the running list at the first poll. *)
Definition w_failed_query (r : response) : world :=
  {| time_time := minute_clock;
     open_file := fun _ => Returns "name: demo";
     yaml_load := fun _ => Returns (JDict [("name", JStr "demo")]);
     json_loads := fun _ => Returns (JDict [("name", JStr "demo")]);
     ParoptClient := Returns tt;
     getOrCreateExperiment := fun _ =>
       Returns {| http_status := 200; data := JDict [("id", JStr "exp1")] |};
     runTrial := fun _ _ =>
       Returns {| http_status := 200;
                  data := JDict [("job", job_record "job1")] |};
     getRunningExperiments := fun _ => ok_list [];
     getFailedExperiments := Returns r |}.

(** Status 500 with an error page for payload. *)
Definition r_error_text : response :=
  {| http_status := 500; data := JStr "Internal Server Error" |}.

(** Status 500 with a list that names the job. *)
Definition r_error_list : response :=
  {| http_status := 500;
     data := JList [JDict [("job_id", JStr "job1");
                           ("job_exc_info", JStr "Traceback")]] |}.

(** The experiment file holds [null]: the YAML parser returns [None]. *)
Definition w_null_yaml : world :=
  {| time_time := minute_clock;
     open_file := fun _ => Returns "null";
     yaml_load := fun _ => Returns JNull;
     json_loads := fun _ => Returns JNull;
     ParoptClient := Returns tt;
     getOrCreateExperiment := fun _ =>
       Returns {| http_status := 200; data := JDict [("id", JStr "exp1")] |};
     runTrial := fun _ _ =>
       Returns {| http_status := 200;
                  data := JDict [("job", job_record "job1")] |};
     getRunningExperiments := fun _ => ok_list [];
     getFailedExperiments := ok_list [] |}.

(** [--experiment e.yaml --optimizer o.json --maxwait 5 --sleepdur 3]. *)
Definition args_sleepdur_3 : args :=
  {| experiment := "e.yaml"; optimizer := "o.json";
     maxwait := 5; sleepdur := 3 |}.

End Scenarios.

(* ================================================================== *)
(** * Vocabulary and scenarios of the credential manager               *)
(* ================================================================== *)

Module Credentials.
Import Auth.



Definition new_tokens : json :=
  JDict [("paropt_service",
          JDict [("access_token", JStr "new_at");
                 ("refresh_token", JStr "new_rt");
                 ("expires_at_seconds", JInt 1700000000)])].

(** The identity provider cannot be reached for revocations; the code is
    typed without white space around it. *)
Definition e_offline : env :=
  {| PAROPT_RT_OPTNAME := "paropt_rt";
     PAROPT_AT_OPTNAME := "paropt_at";
     PAROPT_AT_EXPIRES_OPTNAME := "paropt_at_expires";
     platform_node := "laptop";
     oauth2_get_authorize_url := "https://auth.globus.org/v2/oauth2/authorize";
     input := "code123";
     str_strip := fun line => line;
     oauth2_exchange_code_for_tokens := fun _ => Returns new_tokens;
     oauth2_revoke_token := fun _ _ => Raises NetworkError |}.

(** A store that holds a refresh token, an access token and its expiry. *)
Definition s_logged_in : state :=
  {| store := <["paropt_rt" := JStr "old_rt"]>
              (<["paropt_at" := JStr "old_at"]>
               (<["paropt_at_expires" := JInt 1600000000]> ∅));
     revocations := [];
     printed := [];
     flow := None |}.

Definition cancelling_logout : string :=
  ("Failed to reach Globus to revoke tokens. "
   ++ "Because we cannot revoke these tokens, cancelling "
   ++ "logout")%string.

End Credentials.

(* ================================================================== *)
(** * Records of the running list                                      *)
(* ================================================================== *)

Module Records.
Import Cli.

(** The value under ["job_id"] of a record that is a mapping with that
    key. *)
Definition record_id (job : json) : option json :=
  match job with
  | JDict d => assoc "job_id" d
  | _ => None
  end.

(** The record is a mapping with the key ["job_id"]. *)
Definition well_formed (job : json) : Prop := record_id job <> None.

(** The record carries the given job id. *)
Definition names (id : json) (job : json) : bool :=
  match record_id job with
  | Some v => py_eq v id
  | None => false
  end.

(** The line printed before each sleep. *)
Definition going_to_sleep (sleep_interval : Z) : string :=
  ("Job running, going to sleep for "
   ++ str_of_int sleep_interval ++ " minutes...")%string.

End Records.

(* ================================================================== *)
(** * Events of the workflow                                           *)
(* ================================================================== *)

Module Events.
Import Cli.

(** The events of the wait and of the check that follows it: a sleep, a
    poll of the running list, the query of the failed experiments. *)
Definition waits_or_checks (ev : event) : bool :=
  match ev with
  | Sleep _ | CallGetRunningExperiments | CallGetFailedExperiments => true
  | _ => false
  end.

(** The documents an event hands to the service are the given ones. *)
Definition submits (experiment optimizer : json) (ev : event) : Prop :=
  match ev with
  | CallGetOrCreateExperiment doc => doc = experiment
  | CallRunTrial _ doc => doc = optimizer
  | _ => True
  end.

Definition error_banner : event := Print "---- Error ----".

(** What the program does after the answer of [runTrial] when the job is
    gone at the first poll and is not among the failed experiments. *)
Definition waiting_once : list event :=
  [Print "---- Starting to wait for job to finish ----";
   Print "Job running, going to sleep for 1 minutes...";
   Sleep 60; CallGetRunningExperiments; Print "Job finished running";
   Print "---- Checking if job was successful ----";
   CallGetFailedExperiments; Print "Successfully ran optimizations";
   Print "---- Finished ----"].

(** The events of the wait: lines printed, sleeps and polls. *)
Definition wait_event (ev : event) : Prop :=
  match ev with
  | Print _ | PrintResponse _ | Sleep _ | CallGetRunningExperiments => True
  | _ => False
  end.

(** What the program does up to the answer of [getOrCreateExperiment]. *)
Definition creating (a : args) (experiment : json) (exp_res : response)
  : list event :=
  [OpenFile (Cli.experiment a); OpenFile (Cli.optimizer a);
   Print "---- Creating client ----"; NewClient;
   Print "---- Creating/getting experiment ----";
   CallGetOrCreateExperiment experiment;
   PrintDir exp_res; PrintResponse exp_res].

(** What the program does from there up to the answer of [runTrial]. *)
Definition submitting (exp_id optimizer : json) (trial_res : response)
  : list event :=
  [Print "---- Running job ----"; CallRunTrial exp_id optimizer;
   PrintResponse trial_res].

End Events.

(* ================================================================== *)
(** * More scenarios                                                   *)
(* ================================================================== *)

Module MoreScenarios.
Import Cli Scenarios.

(** The job is listed at the first poll; at the second the list holds a
    record without ["job_id"]. *)
Definition w_malformed : world :=
  service minute_clock
          (fun k => match k with
                    | 0%nat => ok_list [job_record "job1"]
                    | _ => ok_list [JDict [("id", JStr "job1")]]
                    end).

(** The job is gone from the list at the first poll. *)
Definition w_gone : world :=
  service minute_clock (fun _ => ok_list [job_record "job2"]).

(** No file can be opened. *)
Definition w_no_file : world :=
  {| time_time := minute_clock;
     open_file := fun path => Raises (OSError path);
     yaml_load := fun _ => Returns (JDict [("name", JStr "demo")]);
     json_loads := fun _ => Returns (JDict [("name", JStr "demo")]);
     ParoptClient := Returns tt;
     getOrCreateExperiment := fun _ =>
       Returns {| http_status := 200; data := JDict [("id", JStr "exp1")] |};
     runTrial := fun _ _ =>
       Returns {| http_status := 200;
                  data := JDict [("job", job_record "job1")] |};
     getRunningExperiments := fun _ => ok_list [];
     getFailedExperiments := ok_list [] |}.

(** [--experiment e.yaml --optimizer o.json], no wait asked for. *)
Definition args_no_wait : args :=
  {| experiment := "e.yaml"; optimizer := "o.json";
     maxwait := 0; sleepdur := 1 |}.

(** Status 200 with a list that names the job after another one. *)
Definition r_failed_list : response :=
  {| http_status := 200;
     data := JList [job_record "job0";
                    JDict [("job_id", JStr "job1");
                           ("job_exc_info", JStr "Traceback")];
                    JNull] |}.

(** Status 500 with a list that does not name the job. *)
Definition r_down_list : response :=
  {| http_status := 500; data := JList [job_record "job0"] |}.

(** The service refuses the experiment with the given response. *)
Definition w_experiment (exp_res : response) : world :=
  {| time_time := minute_clock;
     open_file := fun _ => Returns "name: demo";
     yaml_load := fun _ => Returns (JDict [("name", JStr "demo")]);
     json_loads := fun _ => Returns (JDict [("name", JStr "demo")]);
     ParoptClient := Returns tt;
     getOrCreateExperiment := fun _ => Returns exp_res;
     runTrial := fun _ _ =>
       Returns {| http_status := 503; data := JStr "busy" |};
     getRunningExperiments := fun _ => ok_list [];
     getFailedExperiments := ok_list [] |}.

Definition demo_doc : json := JDict [("name", JStr "demo")].

Definition r_forbidden : response :=
  {| http_status := 403; data := JStr "forbidden" |}.

Definition r_no_id : response :=
  {| http_status := 200; data := JDict [("name", JStr "demo")] |}.

Definition r_exp1 : response :=
  {| http_status := 200; data := JDict [("id", JStr "exp1")] |}.

End MoreScenarios.

(* ================================================================== *)
(** * paropt_sdk/utils/auth.py: the authorizer                         *)
(* ================================================================== *)

Module Authorizer.
Import Auth.
Local Open Scope auth_scope.

(** Modelled from the spec: [check_logged_in] belongs to the module
    [paropt_sdk.config], which is not part of the sources at hand; the
    specification has it answer whether a valid token record exists in the
    local store, so it is a function of the store.  [py_int] is [int(v)]
    on a stored value: the integer it converts to, or the exception of the
    conversion. *)
Record host : Type := mkHost {
  check_logged_in : gmap string json -> bool;
  py_int : json -> outcome Z
}.

(** The arguments [make_authorizer] builds the [RefreshTokenAuthorizer]
    from: [RefreshTokenAuthorizer(rf_token, auth_client,
    access_token=at_token, expires_at=at_expires)]. *)
Record authorizer : Type := mkAuthorizer {
  rf_token : json;
  at_token : json;
  at_expires : Z
}.

Definition no_credentials : string :=
  "No authorization credentials present. You must log in".

(** Make a RefreshTokenAuthorizer given the tokens stored on disk. *)
Definition make_authorizer (e : env) (h : host) : A authorizer :=
  let* logged_in := (fun s => (Ok (check_logged_in h (store s)), s)) in
  (if negb logged_in then
     safeprint no_credentials >>
     do_login_flow e
   else ret tt) >>
  let* rf := lookup_option (PAROPT_RT_OPTNAME e) in
  let* at_ := lookup_option (PAROPT_AT_OPTNAME e) in
  let* expires := lookup_option (PAROPT_AT_EXPIRES_OPTNAME e) in
  let* at_expires := call (py_int h expires) in
  ret {| rf_token := rf; at_token := at_; at_expires := at_expires |}.

(** The warning of [logout] for a token that is not in the store. *)
Definition no_token_warning (token_opt : string) : string :=
  ("Warning: Found no token named " ++ dquote ++ token_opt
   ++ dquote ++ "! Recommend rescinding consent")%string.

(** The three option names are pairwise different. *)
Definition distinct_names (e : env) : Prop :=
  PAROPT_RT_OPTNAME e <> PAROPT_AT_OPTNAME e
  /\ PAROPT_RT_OPTNAME e <> PAROPT_AT_EXPIRES_OPTNAME e
  /\ PAROPT_AT_OPTNAME e <> PAROPT_AT_EXPIRES_OPTNAME e.

(** The token response of the identity provider for the service. *)
Definition token_response (rt at_ expires : json) : json :=
  JDict [("paropt_service",
          JDict [("access_token", at_);
                 ("refresh_token", rt);
                 ("expires_at_seconds", expires)])].

(** The identity provider revokes whatever it is asked to. *)
Definition e_online : env :=
  {| PAROPT_RT_OPTNAME := "paropt_rt";
     PAROPT_AT_OPTNAME := "paropt_at";
     PAROPT_AT_EXPIRES_OPTNAME := "paropt_at_expires";
     platform_node := "laptop";
     oauth2_get_authorize_url := "https://auth.globus.org/v2/oauth2/authorize";
     input := "code123";
     str_strip := fun line => line;
     oauth2_exchange_code_for_tokens := fun _ =>
       Returns (token_response (JStr "new_rt") (JStr "new_at")
                               (JInt 1700000000));
     oauth2_revoke_token := fun _ _ => Returns tt |}.

(** The identity provider revokes the first token it is asked to and
    cannot be reached after that. *)
Definition e_drops : env :=
  {| PAROPT_RT_OPTNAME := "paropt_rt";
     PAROPT_AT_OPTNAME := "paropt_at";
     PAROPT_AT_EXPIRES_OPTNAME := "paropt_at_expires";
     platform_node := "laptop";
     oauth2_get_authorize_url := "https://auth.globus.org/v2/oauth2/authorize";
     input := "code123";
     str_strip := fun line => line;
     oauth2_exchange_code_for_tokens := fun _ => Raises (Other "invalid_grant");
     oauth2_revoke_token := fun n _ =>
       match n with O => Returns tt | _ => Raises NetworkError end |}.

(** Nothing is stored. *)
Definition s_empty : state :=
  {| store := ∅; revocations := []; printed := []; flow := None |}.

(** Logged in means that the refresh token is stored; a stored integer
    converts to itself. *)
Definition h_demo : host :=
  {| check_logged_in := fun m =>
       match m !! "paropt_rt" with Some _ => true | None => false end;
     py_int := fun v =>
       match v with JInt n => Returns n | _ => Raises TypeError end |}.

End Authorizer.

(* ================================================================== *)
(** * The deadline and the polls                                       *)
(* ================================================================== *)

Module Elapsed.
Import Cli Poller Scenarios.





End Elapsed.

(* ================================================================== *)
(** * The fields of a token response                                   *)
(* ================================================================== *)

Module Tokens.

(** The refresh token, the access token and the expiry that a token
    response holds for the service, when it is a mapping whose
    ["paropt_service"] is a mapping with the three fields. *)
Definition token_fields (tkn : json) : option (json * json * json) :=
  match tkn with
  | JDict d =>
      match assoc "paropt_service" d with
      | Some (JDict f) =>
          match assoc "access_token" f, assoc "refresh_token" f,
                assoc "expires_at_seconds" f with
          | Some at_, Some rt, Some expires => Some (rt, at_, expires)
          | _, _, _ => None
          end
      | _ => None
      end
  | _ => None
  end.

End Tokens.

(* ================================================================== *)
(** * Properties of the poller                                         *)
(* ================================================================== *)

Module PollerFacts.
Import Cli Poller.

Lemma Qltb_lt (x y : Q) : Qltb x y = true <-> (x < y)%Q.
Proof. unfold Qltb, Qlt. apply Z.ltb_lt. Qed.

Lemma Qltb_ge (x y : Q) : Qltb x y = false <-> (y <= x)%Q.
Proof. unfold Qltb, Qle. rewrite Z.ltb_ge. reflexivity. Qed.

(** ** The monad, by components *)

Lemma bind_fst_snd {A B} (m : M A) (f : A -> M B) :
  bind m f =
  match snd m with
  | Ok a => (fst m ++ fst (f a), snd (f a))
  | Raise e => (fst m, Raise e)
  | SysExit c => (fst m, SysExit c)
  | OutOfFuel => (fst m, OutOfFuel)
  end.
Proof.
  destruct m as [t [a|e|c|]]; simpl; try reflexivity.
  destruct (f a); reflexivity.
Qed.

Lemma polls_made_app (t u : list event) :
  polls_made (t ++ u) = (polls_made t + polls_made u)%nat.
Proof.
  induction t as [|e t IH]; simpl; [reflexivity|].
  destruct e; simpl; rewrite IH; reflexivity.
Qed.

Lemma sleeps_app (t u : list event) : sleeps (t ++ u) = sleeps t ++ sleeps u.
Proof.
  induction t as [|e t IH]; simpl; [reflexivity|].
  destruct e; simpl; rewrite IH; reflexivity.
Qed.

(** ** The scan of the running list *)

Lemma job_running_cases (id : json) (jobs : list json) :
  (exists b, job_running id jobs = ([], Ok b))
  \/ (exists e, job_running id jobs = ([], Raise e)).
Proof.
  induction jobs as [|job rest IH]; simpl.
  - left. exists false. reflexivity.
  - unfold lift. destruct (subscript job "job_id") as [j|e|c|] eqn:Hs; simpl.
    + destruct (py_eq j id).
      * left. exists true. reflexivity.
      * destruct IH as [[b ->]|[e ->]]; [left; exists b|right; exists e]; reflexivity.
    + right. exists e. reflexivity.
    + destruct job as [| | | |l|d]; simpl in Hs; try discriminate.
      destruct (assoc "job_id" d); discriminate.
    + destruct job as [| | | |l|d]; simpl in Hs; try discriminate.
      destruct (assoc "job_id" d); discriminate.
Qed.

(** ** One pass through the body *)

Lemma count_fail_coherent (st : wait_locals) :
  coherent st -> coherent (count_fail st).
Proof. unfold coherent. simpl. trivial. Qed.

Lemma wait_body_snd (w : world) (k : nat) (st : wait_locals) :
  coherent st ->
  snd (wait_body w k st) =
  match observe w (job_id st) (sleep_interval st) k with
  | SoftFailure => Ok (Continue (count_fail st))
  | StillRunning => Ok (Continue st)
  | Finished => Ok (Return true)
  | Crashed e => Raise e
  end.
Proof.
  intros Hc. unfold wait_body, observe, time_sleep. rewrite <- Hc.
  destruct (sleep_interval_secs st <? 0); [reflexivity|].
  destruct (getRunningExperiments w k) as [r|e]; [|reflexivity].
  simpl. destruct (httpOK r); simpl; [|reflexivity].
  destruct (data r) as [| | | |jobs|d]; simpl; try reflexivity.
  destruct (job_running_cases (job_id st) jobs) as [[b Hb]|[e He]].
  - rewrite Hb. destruct b; reflexivity.
  - rewrite He. reflexivity.
Qed.

Lemma wait_body_polls (w : world) (k : nat) (st : wait_locals) :
  polls_made (fst (wait_body w k st))
  = if sleep_interval_secs st <? 0 then O else 1%nat.
Proof.
  unfold wait_body, time_sleep.
  destruct (sleep_interval_secs st <? 0); [reflexivity|].
  destruct (getRunningExperiments w k) as [r|e]; [|reflexivity].
  simpl. destruct (httpOK r); simpl; [|reflexivity].
  destruct (data r) as [| | | |jobs|d]; simpl; try reflexivity.
  destruct (job_running_cases (job_id st) jobs) as [[b Hb]|[e He]].
  - rewrite Hb. destruct b; reflexivity.
  - rewrite He. reflexivity.
Qed.

Lemma wait_body_ok_sleep (w : world) (k : nat) (st : wait_locals) (c : ctl) :
  snd (wait_body w k st) = Ok c -> (sleep_interval_secs st <? 0) = false.
Proof.
  unfold wait_body, time_sleep.
  destruct (sleep_interval_secs st <? 0); [discriminate|reflexivity].
Qed.

(** ** The loop *)

Lemma wait_failed_fst (st : wait_locals) : fst (wait_failed st) = [].
Proof. unfold wait_failed. destruct (n_fails st =? MAX_FAILS); reflexivity. Qed.

Lemma wait_loop_exit (w : world) (fuel k : nat) (st : wait_locals) :
  wait_guard w k st = false ->
  wait_loop w (S fuel) k st = wait_failed st.
Proof. intros H. simpl. rewrite H. reflexivity. Qed.

Lemma wait_loop_continue (w : world) (fuel k : nat) (st st' : wait_locals) :
  wait_guard w k st = true ->
  snd (wait_body w k st) = Ok (Continue st') ->
  snd (wait_loop w (S fuel) k st) = snd (wait_loop w fuel (S k) st').
Proof.
  intros Hg Hb. simpl. rewrite Hg, bind_fst_snd, Hb. reflexivity.
Qed.

Lemma wait_loop_return (w : world) (fuel k : nat) (st : wait_locals) (b : bool) :
  wait_guard w k st = true ->
  snd (wait_body w k st) = Ok (Return b) ->
  snd (wait_loop w (S fuel) k st) = Ok b.
Proof.
  intros Hg Hb. simpl. rewrite Hg, bind_fst_snd, Hb. reflexivity.
Qed.

Lemma locals_after_loop (w : world) (n : nat) :
  forall (k : nat) (st st' : wait_locals) (fuel : nat),
    locals_after w k st n = Some st' ->
    snd (wait_loop w (n + fuel) k st) = snd (wait_loop w fuel (n + k) st').
Proof.
  induction n as [|n IH]; intros k st st' fuel H; simpl in H.
  - injection H as <-. reflexivity.
  - destruct (wait_guard w k st) eqn:Hg; [|discriminate].
    destruct (snd (wait_body w k st)) as [[st1|b]| | |] eqn:Hb; try discriminate.
    change (S n + fuel)%nat with (S (n + fuel)).
    rewrite (wait_loop_continue w _ k st st1 Hg Hb).
    rewrite (IH _ _ _ _ H). f_equal. f_equal. lia.
Qed.

Lemma locals_after_last (w : world) (n : nat) :
  forall (k : nat) (st : wait_locals),
    locals_after w k st (S n) =
    match locals_after w k st n with
    | Some st' =>
        if wait_guard w (n + k) st' then
          match snd (wait_body w (n + k) st') with
          | Ok (Continue st'') => Some st''
          | _ => None
          end
        else None
    | None => None
    end.
Proof.
  induction n as [|n IH]; intros k st.
  - simpl. destruct (wait_guard w k st); [|reflexivity].
    destruct (snd (wait_body w k st)) as [[st1|b]| | |]; reflexivity.
  - change (locals_after w k st (S (S n))) with
      (if wait_guard w k st then
         match snd (wait_body w k st) with
         | Ok (Continue st') => locals_after w (S k) st' (S n)
         | _ => None
         end
       else None).
    change (locals_after w k st (S n)) with
      (if wait_guard w k st then
         match snd (wait_body w k st) with
         | Ok (Continue st') => locals_after w (S k) st' n
         | _ => None
         end
       else None).
    destruct (wait_guard w k st); [|reflexivity].
    destruct (snd (wait_body w k st)) as [[st1|b]| | |]; try reflexivity.
    rewrite IH. replace (n + S k)%nat with (S n + k)%nat by lia. reflexivity.
Qed.

Lemma polls_made_locals (w : world) (fuel : nat) :
  forall (k : nat) (st : wait_locals) (n : nat),
    (S n <= polls_made (fst (wait_loop w fuel k st)))%nat ->
    exists st',
      locals_after w k st n = Some st'
      /\ wait_guard w (n + k) st' = true
      /\ (sleep_interval_secs st' <? 0) = false.
Proof.
  induction fuel as [|fuel IH]; intros k st n H.
  - simpl in H. lia.
  - simpl in H. destruct (wait_guard w k st) eqn:Hg.
    2:{ rewrite wait_failed_fst in H. simpl in H. lia. }
    rewrite bind_fst_snd in H.
    pose proof (wait_body_polls w k st) as Hp.
    destruct (snd (wait_body w k st)) as [[st1|b]|e|c|] eqn:Hb; simpl in H.
    + rewrite polls_made_app, Hp in H.
      rewrite (wait_body_ok_sleep _ _ _ _ Hb) in H.
      destruct n as [|n].
      * exists st. simpl. split; [reflexivity|]. split; [exact Hg|].
        exact (wait_body_ok_sleep _ _ _ _ Hb).
      * destruct (IH (S k) st1 n) as (st' & Hl & Hg' & Hs); [lia|].
        exists st'. split; [|split].
        -- simpl. rewrite Hg, Hb. exact Hl.
        -- replace (S n + k)%nat with (n + S k)%nat by lia. exact Hg'.
        -- exact Hs.
    + rewrite polls_made_app, Hp in H. simpl in H.
      destruct (sleep_interval_secs st <? 0) eqn:Hs; [simpl in H; lia|].
      destruct n as [|n]; [|simpl in H; lia].
      exists st. simpl. auto.
    + rewrite Hp in H.
      destruct (sleep_interval_secs st <? 0) eqn:Hs; [lia|].
      destruct n as [|n]; [|lia]. exists st. simpl. auto.
    + rewrite Hp in H.
      destruct (sleep_interval_secs st <? 0) eqn:Hs; [lia|].
      destruct n as [|n]; [|lia]. exists st. simpl. auto.
    + rewrite Hp in H.
      destruct (sleep_interval_secs st <? 0) eqn:Hs; [lia|].
      destruct n as [|n]; [|lia]. exists st. simpl. auto.
Qed.

Lemma snd_bind {A B} (m : M A) (f : A -> M B) :
  snd (bind m f) =
  match snd m with
  | Ok a => snd (f a)
  | Raise e => Raise e
  | SysExit c => SysExit c
  | OutOfFuel => OutOfFuel
  end.
Proof. rewrite bind_fst_snd. destruct (snd m); reflexivity. Qed.

(** More fuel does not change the result of a run that has ended. *)
Lemma wait_loop_fuel_mono (w : world) (fuel : nat) :
  forall (k : nat) (st : wait_locals) (fuel' : nat),
    (fuel <= fuel')%nat ->
    snd (wait_loop w fuel k st) <> OutOfFuel ->
    snd (wait_loop w fuel' k st) = snd (wait_loop w fuel k st).
Proof.
  induction fuel as [|fuel IH]; intros k st fuel' Hle Hne.
  - simpl in Hne. congruence.
  - destruct fuel' as [|fuel']; [lia|].
    simpl in Hne |- *. destruct (wait_guard w k st); [|reflexivity].
    rewrite snd_bind in Hne. rewrite 2!snd_bind.
    destruct (snd (wait_body w k st)) as [[st1|b]| | |]; try reflexivity.
    apply IH; [lia|exact Hne].
Qed.

(** ** The counter of soft failures *)

Lemma soft_failures_step (w : world) (id : json) (si : Z) (k : nat) :
  soft_failures w id si k <= soft_failures w id si (S k) <= soft_failures w id si k + 1.
Proof. simpl. destruct (observe w id si k); lia. Qed.

Lemma soft_failures_mono (w : world) (id : json) (si : Z) (n m : nat) :
  (n <= m)%nat -> soft_failures w id si n <= soft_failures w id si m.
Proof.
  induction 1 as [|m _ IH]; [lia|].
  pose proof (soft_failures_step w id si m). lia.
Qed.

Lemma soft_failures_nonneg (w : world) (id : json) (si : Z) (n : nat) :
  0 <= soft_failures w id si n.
Proof. apply (soft_failures_mono w id si 0 n). lia. Qed.

(** What a pass that keeps waiting does to the local variables. *)
Lemma keeps_waiting_body (w : world) (k : nat) (st : wait_locals) :
  coherent st ->
  keeps_waiting (observe w (job_id st) (sleep_interval st) k) = true ->
  exists st',
    snd (wait_body w k st) = Ok (Continue st')
    /\ coherent st'
    /\ job_id st' = job_id st
    /\ sleep_interval st' = sleep_interval st
    /\ timeout st' = timeout st
    /\ n_fails st' + soft_failures w (job_id st) (sleep_interval st) k
       = n_fails st + soft_failures w (job_id st) (sleep_interval st) (S k).
Proof.
  intros Hc Hk. rewrite (wait_body_snd w k st Hc). simpl.
  destruct (observe w (job_id st) (sleep_interval st) k); try discriminate.
  - exists (count_fail st). simpl. repeat split; try reflexivity; try lia.
    exact (count_fail_coherent st Hc).
  - exists st. repeat split; try reflexivity; try lia. exact Hc.
Qed.

Lemma locals_after_fields (w : world) (st : wait_locals) (n : nat) :
  coherent st ->
  forall st',
    locals_after w 0 st n = Some st' ->
    coherent st'
    /\ job_id st' = job_id st
    /\ sleep_interval st' = sleep_interval st
    /\ timeout st' = timeout st
    /\ n_fails st'
       = n_fails st + soft_failures w (job_id st) (sleep_interval st) n.
Proof.
  intros Hc. induction n as [|n IH]; intros st' H.
  - simpl in H. injection H as <-. simpl. repeat split; try reflexivity; try lia.
    exact Hc.
  - rewrite locals_after_last in H.
    destruct (locals_after w 0 st n) as [st1|]; [|discriminate].
    destruct (IH st1 eq_refl) as (Hc1 & Hj & Hs & Ht & Hn).
    rewrite Nat.add_0_r in H.
    destruct (wait_guard w n st1); [|discriminate].
    rewrite (wait_body_snd w n st1 Hc1) in H.
    rewrite Hj, Hs in H. simpl.
    destruct (observe w (job_id st) (sleep_interval st) n);
      try discriminate; injection H as <-; simpl;
      repeat split; try assumption; try lia.
Qed.

(** ** How the loop ends *)

Lemma wait_failed_too_many (st : wait_locals) :
  n_fails st = 3 -> snd (wait_failed st) = Raise too_many_failed_calls.
Proof. intros H. unfold wait_failed. rewrite H. reflexivity. Qed.


Lemma wait_guard_true (w : world) (k : nat) (st : wait_locals) :
  wait_guard w k st = true
  <-> (time_time w (S k) < timeout st)%Q /\ n_fails st < 3.
Proof.
  unfold wait_guard, MAX_FAILS.
  rewrite andb_true_iff, Qltb_lt, Z.ltb_lt. reflexivity.
Qed.

Lemma wait_guard_false (w : world) (k : nat) (st : wait_locals) :
  wait_guard w k st = false
  <-> (timeout st <= time_time w (S k))%Q \/ 3 <= n_fails st.
Proof.
  unfold wait_guard, MAX_FAILS.
  rewrite andb_false_iff, Qltb_ge, Z.ltb_ge. reflexivity.
Qed.

Section Loop.
Variable w : world.

Let sf (st : wait_locals) (n : nat) : Z :=
  soft_failures w (job_id st) (sleep_interval st) n.
Let waits (st : wait_locals) (i : nat) : Prop :=
  keeps_waiting (observe w (job_id st) (sleep_interval st) i) = true.

(** The step of the three inductions below: a pass that keeps waiting
    hands over local variables with the same deadline and a counter that
    went up by the soft failure of this pass, if any. *)
Lemma pass_on (k : nat) (st : wait_locals) :
  coherent st -> waits st k ->
  exists st',
    snd (wait_body w k st) = Ok (Continue st')
    /\ coherent st'
    /\ timeout st' = timeout st
    /\ (forall i, waits st' i <-> waits st i)
    /\ (forall n, sf st' n = sf st n)
    /\ n_fails st' + sf st k = n_fails st + sf st (S k).
Proof.
  intros Hc Hk.
  destruct (keeps_waiting_body w k st Hc Hk) as (st' & Hb & Hc' & Hj & Hs & Ht & Hn).
  exists st'. unfold waits, sf. rewrite Hj, Hs. repeat split; auto.
Qed.


Lemma loop_too_many (m : nat) :
  forall (k : nat) (st : wait_locals) (fuel : nat),
    coherent st ->
    n_fails st <= 3 ->
    (forall i, (k <= i < m + k)%nat -> (time_time w (S i) < timeout st)%Q) ->
    (forall i, (k <= i < m + k)%nat -> waits st i) ->
    n_fails st + sf st (m + k) - sf st k = 3 ->
    (m < fuel)%nat ->
    snd (wait_loop w fuel k st) = Raise too_many_failed_calls.
Proof.
  induction m as [|m IH]; intros k st fuel Hc Hle Ht Hk Hn Hf;
    (destruct fuel as [|fuel]; [lia|]).
  - simpl in Hn. rewrite wait_loop_exit.
    + apply wait_failed_too_many. lia.
    + apply wait_guard_false. right. lia.
  - destruct (wait_guard w k st) eqn:Hg.
    + apply wait_guard_true in Hg as Hg'. destruct Hg' as [_ Hlt].
      destruct (pass_on k st Hc (Hk k ltac:(lia)))
        as (st' & Hb & Hc' & Ht' & Hw & Hsf & Hn').
      pose proof (soft_failures_step w (job_id st) (sleep_interval st) k) as Hstep.
      fold (sf st k) (sf st (S k)) in Hstep.
      rewrite (wait_loop_continue w fuel k st st' Hg Hb).
      replace (S m + k)%nat with (m + S k)%nat in * by lia.
      apply IH; try assumption; try lia.
      * intros i Hi. rewrite Ht'. apply Ht. lia.
      * intros i Hi. apply Hw, Hk. lia.
      * rewrite !Hsf. lia.
    + rewrite wait_loop_exit by exact Hg. apply wait_failed_too_many.
      apply wait_guard_false in Hg. destruct Hg as [Hg|Hg]; [|lia].
      specialize (Ht k ltac:(lia)). exfalso. revert Ht. apply Qle_not_lt, Hg.
Qed.

Lemma loop_finishes (m : nat) :
  forall (k : nat) (st : wait_locals) (fuel : nat),
    coherent st ->
    (forall i, (k <= i <= m + k)%nat -> (time_time w (S i) < timeout st)%Q) ->
    (forall i, (k <= i < m + k)%nat -> waits st i) ->
    observe w (job_id st) (sleep_interval st) (m + k) = Finished ->
    n_fails st + sf st (m + k) - sf st k < 3 ->
    (m < fuel)%nat ->
    snd (wait_loop w fuel k st) = Ok true.
Proof.
  induction m as [|m IH]; intros k st fuel Hc Ht Hk Hfin Hn Hf;
    (destruct fuel as [|fuel]; [lia|]).
  - simpl in Hfin, Hn. apply wait_loop_return.
    + apply wait_guard_true. split; [apply Ht|]; lia.
    + rewrite (wait_body_snd w k st Hc), Hfin. reflexivity.
  - pose proof (soft_failures_mono w (job_id st) (sleep_interval st) k (S m + k)
                  ltac:(lia)) as Hmono. fold (sf st k) (sf st (S m + k)) in Hmono.
    assert (Hg : wait_guard w k st = true).
    { apply wait_guard_true. split; [apply Ht|]; lia. }
    destruct (pass_on k st Hc (Hk k ltac:(lia)))
      as (st' & Hb & Hc' & Ht' & Hw & Hsf & Hn').
    assert (Hobs : observe w (job_id st') (sleep_interval st') (S m + k) = Finished).
    { destruct (keeps_waiting_body w k st Hc (Hk k ltac:(lia)))
        as (st2 & Hb2 & _ & Hj & Hs & _).
      rewrite Hb in Hb2. injection Hb2 as <-. rewrite Hj, Hs. exact Hfin. }
    rewrite (wait_loop_continue w fuel k st st' Hg Hb).
    replace (S m + k)%nat with (m + S k)%nat in * by lia.
    apply IH; try assumption; try lia.
    * intros i Hi. rewrite Ht'. apply Ht. lia.
    * intros i Hi. apply Hw, Hk. lia.
    * rewrite !Hsf. lia.
Qed.

End Loop.

Lemma observe_non_2xx (w : world) (id : json) (si : Z) (j : nat) (r : response) :
  (si * 60 <? 0) = false ->
  getRunningExperiments w j = Returns r ->
  httpOK r = false ->
  observe w id si j = SoftFailure.
Proof. intros Hs Hr Hok. unfold observe. rewrite Hs, Hr, Hok. reflexivity. Qed.

(** C5. A poll answered with a status outside 200-299, or with a payload
    that is not a list, adds exactly one to the counter of soft failures
    and hands the loop on with the deadline it had; the deadline stays the
    one computed at the start for as long as the loop runs; and a run in
    which three polls in a row are answered with a status outside 200-299
    ends with the failure for too many failed calls, whatever the clock
    reads by then. *)
Theorem soft_failures_counted_three_in_a_row
    (w : world) (id : json) (max_wait sleep_interval : Z) :
  (forall (k : nat) (st : wait_locals) (r : response),
      getRunningExperiments w k = Returns r ->
      0 <= sleep_interval_secs st ->
      httpOK r = false \/ is_list (data r) = false ->
      snd (wait_body w k st) = Ok (Continue (count_fail st))
      /\ n_fails (count_fail st) = n_fails st + 1
      /\ timeout (count_fail st) = timeout st)
  /\ (forall (n : nat) (st : wait_locals),
      locals_after w 0 (wait_init w id max_wait sleep_interval) n = Some st ->
      timeout st = deadline (time_time w 0) max_wait)
  /\ (forall (i fuel fuel' : nat),
      (i + 3 <= polls_made (fst (waitForJob w id max_wait sleep_interval fuel)))%nat ->
      (forall j, (i <= j < i + 3)%nat ->
                 exists r, getRunningExperiments w j = Returns r
                           /\ httpOK r = false) ->
      (i + 4 <= fuel')%nat ->
      snd (waitForJob w id max_wait sleep_interval fuel')
      = Raise too_many_failed_calls).
Proof.
  split; [|split].
  - intros k st r Hr Hs Hbad. split; [|split; reflexivity].
    unfold wait_body, time_sleep.
    destruct (sleep_interval_secs st <? 0) eqn:E; [apply Z.ltb_lt in E; lia|].
    rewrite Hr. simpl. destruct (httpOK r); [|reflexivity].
    destruct Hbad as [Hbad|Hbad]; [discriminate|].
    destruct (data r); try discriminate; reflexivity.
  - intros n st H.
    apply locals_after_fields in H; [|reflexivity].
    destruct H as (_ & _ & _ & Ht & _). exact Ht.
  - intros i fuel fuel' Hp Hbad Hf. unfold waitForJob in *.
    set (st0 := wait_init w id max_wait sleep_interval) in *.
    assert (Hc0 : coherent st0) by reflexivity.
    destruct (polls_made_locals w fuel 0 st0 (i + 2)) as (st2 & Hl2 & Hg2 & Hs2);
      [lia|].
    rewrite Nat.add_0_r in Hg2.
    destruct (locals_after_fields w st0 (i + 2) Hc0 st2 Hl2)
      as (Hc2 & Hj2 & Hsi2 & Ht2 & Hn2).
    assert (Hsleep : (sleep_interval * 60 <? 0) = false).
    { rewrite Hc2, Hsi2 in Hs2. exact Hs2. }
    assert (Hobs : forall j, (i <= j < i + 3)%nat ->
                             observe w id sleep_interval j = SoftFailure).
    { intros j Hj. destruct (Hbad j Hj) as (r & Hr & Hok).
      exact (observe_non_2xx w id sleep_interval j r Hsleep Hr Hok). }
    simpl in Hn2.
    assert (Hsf : soft_failures w id sleep_interval (i + 2)
                  = soft_failures w id sleep_interval i + 2).
    { replace (i + 2)%nat with (S (S i)) by lia. simpl.
      rewrite (Hobs i), (Hobs (S i)) by lia. lia. }
    pose proof (soft_failures_nonneg w id sleep_interval i) as Hnn.
    apply wait_guard_true in Hg2 as Hg2'. destruct Hg2' as [_ Hlt].
    assert (Hl3 : locals_after w 0 st0 (S (i + 2)) = Some (count_fail st2)).
    { rewrite locals_after_last, Hl2, Nat.add_0_r, Hg2.
      rewrite (wait_body_snd w (i + 2) st2 Hc2), Hj2, Hsi2. simpl.
      rewrite (Hobs (i + 2)%nat) by lia. reflexivity. }
    replace fuel' with (S (i + 2) + S (fuel' - (i + 4)))%nat by lia.
    rewrite (locals_after_loop w _ _ _ _ _ Hl3).
    rewrite wait_loop_exit.
    + apply wait_failed_too_many. simpl. lia.
    + apply wait_guard_false. right. simpl. lia.
Qed.

(** The scenario of C5: the service answers every poll with status 500. *)
Lemma soft_failures_counted_three_in_a_row_witness :
  snd (wait_body Scenarios.w_down 0 (wait_init Scenarios.w_down (JStr "job1") 5 1))
  = Ok (Continue (count_fail (wait_init Scenarios.w_down (JStr "job1") 5 1)))
  /\ snd (waitForJob Scenarios.w_down (JStr "job1") 5 1 4)
     = Raise too_many_failed_calls.
Proof.
  destruct (soft_failures_counted_three_in_a_row
              Scenarios.w_down (JStr "job1") 5 1) as (H1 & _ & H3).
  split.
  - apply (H1 0%nat _ {| http_status := 500; data := JNull |}).
    + reflexivity.
    + vm_compute. discriminate.
    + left. reflexivity.
  - apply (H3 0%nat 9%nat 4%nat).
    + vm_compute. lia.
    + intros j Hj. exists {| http_status := 500; data := JNull |}.
      split; reflexivity.
    + lia.
Defined.




(** C7. With [max_wait < 0] the deadline is 86400 seconds after the start;
    and when the job is gone from the running list at a poll made while the
    clock still reads less than that, the polls before it being soft
    failures (fewer than three) or showing the job running, the wait
    returns [True] and does not end with the failure for the timeout. *)
Theorem negative_max_wait_waits_a_day
    (w : world) (id : json) (max_wait sleep_interval : Z) :
  max_wait < 0 ->
  timeout (wait_init w id max_wait sleep_interval)
  = (time_time w 0 + inject_Z 86400)%Q
  /\ (forall k : nat,
        (forall i, (i <= k)%nat ->
                   (time_time w (S i) < time_time w 0 + inject_Z 86400)%Q) ->
        (forall i, (i < k)%nat ->
                   keeps_waiting (observe w id sleep_interval i) = true) ->
        observe w id sleep_interval k = Finished ->
        soft_failures w id sleep_interval k < 3 ->
        (forall fuel, (k < fuel)%nat ->
                      snd (waitForJob w id max_wait sleep_interval fuel)
                      = Ok true)
        /\ (forall fuel,
               snd (waitForJob w id max_wait sleep_interval fuel)
               <> Raise reached_maximum_timeout)).
Proof.
  intros Hneg.
  assert (Hd : timeout (wait_init w id max_wait sleep_interval)
               = (time_time w 0 + inject_Z 86400)%Q).
  { simpl. unfold deadline.
    destruct (max_wait <? 0) eqn:E; [reflexivity|apply Z.ltb_ge in E; lia]. }
  split; [exact Hd|].
  intros k Ht Hk Hfin Hn.
  assert (Hok : forall fuel, (k < fuel)%nat ->
                  snd (waitForJob w id max_wait sleep_interval fuel) = Ok true).
  { intros fuel Hf. unfold waitForJob.
    apply (loop_finishes w k 0); rewrite ?Nat.add_0_r.
    - reflexivity.
    - intros i Hi. rewrite Hd. apply Ht. lia.
    - intros i Hi. apply Hk. lia.
    - exact Hfin.
    - simpl. lia.
    - exact Hf. }
  split; [exact Hok|].
  intros fuel Habs.
  pose proof (Hok (Nat.max fuel (S k)) ltac:(lia)) as H.
  unfold waitForJob in *.
  rewrite (wait_loop_fuel_mono w fuel _ _ (Nat.max fuel (S k))) in H;
    [congruence|lia|congruence].
Qed.

(** The scenario of C7: no limit asked for, the job gone at the third
    poll. *)
Lemma negative_max_wait_waits_a_day_witness :
  timeout (wait_init Scenarios.w_done_at_third (JStr "job1") (-1) 1)
  = (time_time Scenarios.w_done_at_third 0 + inject_Z 86400)%Q
  /\ snd (waitForJob Scenarios.w_done_at_third (JStr "job1") (-1) 1 3) = Ok true.
Proof.
  destruct (negative_max_wait_waits_a_day
              Scenarios.w_done_at_third (JStr "job1") (-1) 1 ltac:(lia))
    as [Hd H].
  split; [exact Hd|].
  apply (H 2%nat).
  - intros i Hi. do 3 (destruct i as [|i]; [reflexivity|]). lia.
  - intros i Hi. do 2 (destruct i as [|i]; [reflexivity|]). lia.
  - reflexivity.
  - reflexivity.
  - lia.
Defined.

(** C8. The counter of soft failures is never reset: on every arrival at
    the guard it is the number of soft failures among all the polls made
    so far, it does not decrease from one arrival to a later one, and a
    poll that shows the job still running leaves the local variables as
    they are.  So three soft failures in the whole wait, whatever the
    number of polls showing the job running between them, end it with the
    failure for too many failed calls. *)
Theorem fail_counter_never_reset
    (w : world) (id : json) (max_wait sleep_interval : Z) :
  (forall (n : nat) (st : wait_locals),
      locals_after w 0 (wait_init w id max_wait sleep_interval) n = Some st ->
      n_fails st = soft_failures w id sleep_interval n)
  /\ (forall (n m : nat) (st st' : wait_locals),
        (n <= m)%nat ->
        locals_after w 0 (wait_init w id max_wait sleep_interval) n = Some st ->
        locals_after w 0 (wait_init w id max_wait sleep_interval) m = Some st' ->
        n_fails st <= n_fails st')
  /\ (forall (k : nat) (st : wait_locals),
        coherent st ->
        observe w (job_id st) (Cli.sleep_interval st) k = StillRunning ->
        snd (wait_body w k st) = Ok (Continue st))
  /\ (forall (k fuel : nat),
        (forall i, (i < k)%nat ->
                   (time_time w (S i) < deadline (time_time w 0) max_wait)%Q) ->
        (forall i, (i < k)%nat ->
                   keeps_waiting (observe w id sleep_interval i) = true) ->
        soft_failures w id sleep_interval k = 3 ->
        (k < fuel)%nat ->
        snd (waitForJob w id max_wait sleep_interval fuel)
        = Raise too_many_failed_calls).
Proof.
  assert (Hcount : forall (n : nat) (st : wait_locals),
             locals_after w 0 (wait_init w id max_wait sleep_interval) n = Some st ->
             n_fails st = soft_failures w id sleep_interval n).
  { intros n st H. apply locals_after_fields in H; [|reflexivity].
    destruct H as (_ & _ & _ & _ & Hn). simpl in Hn. lia. }
  split; [exact Hcount|]. split; [|split].
  - intros n m st st' Hnm Hn Hm.
    rewrite (Hcount n st Hn), (Hcount m st' Hm).
    apply soft_failures_mono. exact Hnm.
  - intros k st Hc Hobs. rewrite (wait_body_snd w k st Hc), Hobs. reflexivity.
  - intros k fuel Ht Hk Hn Hf. unfold waitForJob.
    apply (loop_too_many w k 0); rewrite ?Nat.add_0_r; simpl.
    + reflexivity.
    + lia.
    + intros i Hi. apply Ht. lia.
    + intros i Hi. apply Hk. lia.
    + lia.
    + exact Hf.
Qed.

(** The scenario of C8: soft failures at the polls 0, 2 and 4, the job
    listed at the polls 1 and 3. *)
Lemma fail_counter_never_reset_witness :
  locals_after Scenarios.w_flaky 0
    (wait_init Scenarios.w_flaky (JStr "job1") 10 1) 4
  = Some {| job_id := JStr "job1"; Cli.sleep_interval := 1;
            timeout := deadline (time_time Scenarios.w_flaky 0) 10;
            sleep_interval_secs := 60; n_fails := 2 |}
  /\ snd (waitForJob Scenarios.w_flaky (JStr "job1") 10 1 6)
     = Raise too_many_failed_calls.
Proof.
  destruct (fail_counter_never_reset Scenarios.w_flaky (JStr "job1") 10 1)
    as (_ & _ & _ & H).
  split; [reflexivity|].
  apply (H 5%nat 6%nat).
  - intros i Hi. do 5 (destruct i as [|i]; [reflexivity|]). lia.
  - intros i Hi. do 5 (destruct i as [|i]; [reflexivity|]). lia.
  - reflexivity.
  - lia.
Defined.

End PollerFacts.

(* ================================================================== *)
(** * Properties of the workflow                                       *)
(* ================================================================== *)

Module CliFacts.
Import Cli Poller Inputs PollerFacts.

(** ** The sleeps of a run *)

Lemma sleeps_bind {A B} (m : M A) (f : A -> M B) (P : Z -> Prop) :
  Forall P (sleeps (fst m)) ->
  (forall a, Forall P (sleeps (fst (f a)))) ->
  Forall P (sleeps (fst (bind m f))).
Proof.
  intros Hm Hf. rewrite bind_fst_snd.
  destruct (snd m) as [a| | |]; simpl; try exact Hm.
  rewrite sleeps_app. apply Forall_app. split; [exact Hm|apply Hf].
Qed.

Lemma sleeps_call {A} (ev : list event) (o : outcome A) (P : Z -> Prop) :
  Forall P (sleeps ev) -> Forall P (sleeps (fst (call ev o))).
Proof. intros H. destruct o; exact H. Qed.

Lemma sleeps_job_running (id : json) (jobs : list json) (P : Z -> Prop) :
  Forall P (sleeps (fst (job_running id jobs))).
Proof.
  destruct (job_running_cases id jobs) as [[b ->]|[e ->]]; constructor.
Qed.

Lemma sleeps_raise_if_failed (id : json) (exps : list json) (P : Z -> Prop) :
  Forall P (sleeps (fst (raise_if_failed id exps))).
Proof.
  induction exps as [|exp rest IH]; cbn [raise_if_failed]; [constructor|].
  apply sleeps_bind; [constructor|]. intros j.
  destruct (py_eq j id); [|exact IH].
  apply sleeps_bind; constructor.
Qed.

Ltac sleeps_leaf :=
  match goal with
  | |- Forall _ (sleeps (fst (bind _ _))) => apply sleeps_bind; [|intros ?]
  | |- Forall _ (sleeps (fst (call _ _))) => apply sleeps_call
  | |- Forall _ (sleeps (fst (job_running _ _))) => apply sleeps_job_running
  | |- Forall _ (sleeps (fst (raise_if_failed _ _))) =>
      apply sleeps_raise_if_failed
  | |- Forall _ (sleeps (fst (if ?c then _ else _))) => destruct c
  | |- Forall _ (sleeps (fst (match ?c with _ => _ end))) => destruct c
  | |- Forall _ (sleeps _) => simpl; constructor
  end.

Lemma sleeps_wait_body (w : world) (k : nat) (st : wait_locals) :
  Forall (fun secs => secs = sleep_interval_secs st)
         (sleeps (fst (wait_body w k st))).
Proof.
  unfold wait_body, time_sleep, print, printResponse, emit, raise, ret.
  apply sleeps_bind; [constructor|]. intros _.
  apply sleeps_bind.
  { destruct (sleep_interval_secs st <? 0); simpl; repeat constructor. }
  intros _. repeat sleeps_leaf.
Qed.

Lemma wait_body_keeps_secs (w : world) (k : nat) (st st' : wait_locals) :
  snd (wait_body w k st) = Ok (Continue st') ->
  sleep_interval_secs st' = sleep_interval_secs st.
Proof.
  unfold wait_body, time_sleep.
  destruct (sleep_interval_secs st <? 0); [discriminate|].
  destruct (getRunningExperiments w k) as [r|e]; [|discriminate].
  simpl. destruct (httpOK r); simpl; [|intros [= <-]; reflexivity].
  destruct (data r) as [| | | |jobs|d]; simpl; try (intros [= <-]; reflexivity).
  destruct (job_running_cases (job_id st) jobs) as [[b ->]|[e ->]];
    [|discriminate].
  destruct b; simpl; [intros [= <-]; reflexivity|discriminate].
Qed.

Lemma sleeps_wait_loop (w : world) (fuel : nat) :
  forall (k : nat) (st : wait_locals),
    Forall (fun secs => secs = sleep_interval_secs st)
           (sleeps (fst (wait_loop w fuel k st))).
Proof.
  induction fuel as [|fuel IH]; intros k st; simpl; [constructor|].
  destruct (wait_guard w k st).
  2:{ rewrite wait_failed_fst. constructor. }
  rewrite bind_fst_snd.
  destruct (snd (wait_body w k st)) as [[st'|b]| | |] eqn:Hb; simpl;
    try apply sleeps_wait_body.
  - rewrite sleeps_app. apply Forall_app. split; [apply sleeps_wait_body|].
    rewrite <- (wait_body_keeps_secs w k st st' Hb). apply IH.
  - rewrite sleeps_app. apply Forall_app. split; [apply sleeps_wait_body|].
    constructor.
Qed.

Lemma sleeps_try_banner {A} (body : M A) (P : Z -> Prop) :
  Forall P (sleeps (fst body)) -> Forall P (sleeps (fst (try_banner body))).
Proof.
  intros H. destruct body as [t [a|e|c|]]; simpl in *; try exact H;
    rewrite sleeps_app; apply Forall_app; split; try exact H; constructor.
Qed.

Lemma sleeps_loadYmlJson (w : world) (path : string) (P : Z -> Prop) :
  Forall P (sleeps (fst (loadYmlJson w path))).
Proof. unfold loadYmlJson. repeat sleeps_leaf. Qed.

Lemma sleeps_check_job_successful (w : world) (id : json) (P : Z -> Prop) :
  Forall P (sleeps (fst (check_job_successful w id))).
Proof. unfold check_job_successful. repeat sleeps_leaf. Qed.

Lemma sleeps_waitForJob (w : world) (id : json) (max_wait si : Z) (fuel : nat) :
  Forall (fun secs => secs = si * 60)
         (sleeps (fst (waitForJob w id max_wait si fuel))).
Proof.
  unfold waitForJob.
  exact (sleeps_wait_loop w fuel 0 (wait_init w id max_wait si)).
Qed.

Lemma sleeps_workflow (w : world) (a : args) (e o : json) (fuel : nat) :
  Forall (fun secs => secs = 60) (sleeps (fst (workflow w a e o fuel))).
Proof.
  unfold workflow.
  repeat first
    [ apply sleeps_check_job_successful
    | apply (sleeps_waitForJob w _ _ sleep_interval_default)
    | sleeps_leaf ].
Qed.

(** C1 (the code departs from it). Whatever [--sleepdur] says, every sleep
    of a run of the program lasts 60 seconds: [main] calls [waitForJob]
    with three arguments, so that [sleep_interval] takes its default, one
    minute.  With [--maxwait 5 --sleepdur 3] and a job that stays listed,
    the four sleeps last 60 seconds each, not 180. *)
Theorem polling_interval_ignores_sleepdur :
  (forall (w : world) (a : args) (fuel : nat),
      Forall (fun secs => secs = 60) (sleeps (fst (main w a fuel))))
  /\ sleepdur Scenarios.args_sleepdur_3 = 3
  /\ sleeps (fst (main Scenarios.w_stuck Scenarios.args_sleepdur_3 10))
     = [60; 60; 60; 60].
Proof.
  split; [|split; reflexivity].
  intros w a fuel. unfold main.
  repeat first
    [ apply sleeps_try_banner
    | apply sleeps_workflow
    | apply sleeps_loadYmlJson
    | sleeps_leaf ].
Qed.

(** ** The check after the wait *)

Lemma check_job_successful_eq (w : world) (id : json) (r : response) :
  getFailedExperiments w = Returns r ->
  let iterate :=
    let* exps := lift (py_iter (data r)) in
    raise_if_failed id exps >> print "Successfully ran optimizations" in
  check_job_successful w id
  = ([Print "---- Checking if job was successful ----";
      CallGetFailedExperiments]
     ++ (if httpOK r then []
         else [Print "Unable to get failed experiments, skipping..."])
     ++ (if is_list (data r) then []
         else [Print "Expected response to be list, skipping..."])
     ++ fst iterate,
     snd iterate).
Proof.
  intros Hr iterate. subst iterate. unfold check_job_successful.
  rewrite Hr. simpl.
  destruct (httpOK r), (is_list (data r)); simpl;
    destruct (py_iter (data r)) as [exps| | |]; simpl; try reflexivity;
    destruct (raise_if_failed id exps) as [t [[]| | |]]; reflexivity.
Qed.

(** C9. In the check that follows the wait, a response of
    [getFailedExperiments] outside 200-299, or whose payload is not a
    list, is announced as skipped and iterated over all the same: with a
    list for payload the loop over the failed experiments runs as it would
    after a 2xx answer, and with a string or a mapping that is not empty
    the loop raises [TypeError] at its first item, so that
    "Successfully ran optimizations" is not printed. *)
Theorem failed_check_not_skipped (w : world) (id : json) (r : response) :
  getFailedExperiments w = Returns r ->
  (forall exps : list json,
      httpOK r = false ->
      data r = JList exps ->
      In (Print "Unable to get failed experiments, skipping...")
         (fst (check_job_successful w id))
      /\ snd (check_job_successful w id)
         = snd (raise_if_failed id exps >>
                print "Successfully ran optimizations"))
  /\ (breaks_the_loop (data r) ->
      In (Print "Expected response to be list, skipping...")
         (fst (check_job_successful w id))
      /\ snd (check_job_successful w id) = Raise TypeError
      /\ ~ In (Print "Successfully ran optimizations")
             (fst (check_job_successful w id))).
Proof.
  intros Hr. rewrite (check_job_successful_eq w id r Hr). split.
  - intros exps Hok Hd. rewrite Hok, Hd. simpl.
    destruct (raise_if_failed id exps >> print "Successfully ran optimizations")
      as [t res]. simpl. auto.
  - intros Hd. destruct (httpOK r), (data r) as [| | |[|c s]|l|[|[k v] d]];
      simpl in Hd; try contradiction; simpl;
      (split; [tauto|]); (split; [reflexivity|]);
      intros H; repeat (destruct H as [H|H]; [discriminate|]); exact H.
Qed.

(** The scenarios of C9: status 500 with a list that names the job, and
    status 500 with an error page. *)
Lemma failed_check_not_skipped_witness :
  snd (check_job_successful (Scenarios.w_failed_query Scenarios.r_error_list)
                            (JStr "job1"))
  = Raise (ServerFailed (JStr "Traceback"))
  /\ snd (check_job_successful (Scenarios.w_failed_query Scenarios.r_error_text)
                               (JStr "job1"))
     = Raise TypeError.
Proof.
  split.
  - destruct (failed_check_not_skipped
                (Scenarios.w_failed_query Scenarios.r_error_list) (JStr "job1")
                Scenarios.r_error_list eq_refl) as [H _].
    destruct (H _ eq_refl eq_refl) as [_ ->]. reflexivity.
  - destruct (failed_check_not_skipped
                (Scenarios.w_failed_query Scenarios.r_error_text) (JStr "job1")
                Scenarios.r_error_text eq_refl) as [_ H].
    destruct (H I) as (_ & -> & _). reflexivity.
Defined.

(** ** The input files *)

Lemma loadYmlJson_null (w : world) (path content : string) :
  open_file w path = Returns content ->
  parses_to_null w path content \/ unsupported path ->
  loadYmlJson w path = ([OpenFile path], Ok JNull).
Proof.
  intros Ho H. unfold loadYmlJson. rewrite Ho. simpl.
  destruct H as [[[Hy Hp]|(Hy & Hj & Hp)]|(Hy & Hm & Hj)].
  - rewrite Hy, Hp. reflexivity.
  - rewrite Hy, Hj, Hp. reflexivity.
  - rewrite Hy, Hm, Hj. reflexivity.
Qed.

(** C10. A file with an accepted extension whose contents parse to
    [None] is treated as a file with an unsupported extension is: for the
    experiment file, and for the optimizer file once the experiment is
    loaded, the program prints the message about file types and exits with
    code 1. *)
Theorem null_document_treated_as_unsupported
    (w : world) (a : args) (fuel : nat) :
  (forall content : string,
      open_file w (experiment a) = Returns content ->
      parses_to_null w (experiment a) content \/ unsupported (experiment a) ->
      main w a fuel
      = ([OpenFile (experiment a); Print FILE_TYPE_MSG], SysExit 1))
  /\ (forall (doc : json) (content : string),
        loadYmlJson w (experiment a) = ([OpenFile (experiment a)], Ok doc) ->
        py_eq doc JNull = false ->
        open_file w (optimizer a) = Returns content ->
        parses_to_null w (optimizer a) content \/ unsupported (optimizer a) ->
        main w a fuel
        = ([OpenFile (experiment a); OpenFile (optimizer a);
            Print FILE_TYPE_MSG], SysExit 1)).
Proof.
  split.
  - intros content Ho H. unfold main.
    rewrite (loadYmlJson_null w _ content Ho H). reflexivity.
  - intros doc content He Hd Ho H. unfold main.
    rewrite He, (loadYmlJson_null w _ content Ho H). simpl.
    rewrite Hd. reflexivity.
Qed.

(** The scenario of C10: [e.yaml] holds [null]. *)
Lemma null_document_treated_as_unsupported_witness :
  main Scenarios.w_null_yaml Scenarios.args_sleepdur_3 1
  = ([OpenFile "e.yaml"; Print FILE_TYPE_MSG], SysExit 1).
Proof.
  destruct (null_document_treated_as_unsupported
              Scenarios.w_null_yaml Scenarios.args_sleepdur_3 1) as [H _].
  apply (H "null").
  - reflexivity.
  - left. left. split; reflexivity.
Defined.

End CliFacts.

(* ================================================================== *)
(** * Properties of the credential manager                             *)
(* ================================================================== *)

Module AuthFacts.
Import Auth Credentials.

(** C3 (the code departs from it). The login flow never starts the
    authorization flow: reading [FUNCX_SCOPE], a name bound neither in
    [do_login_flow] nor at the top level of the module, raises
    [NameError], and the state is left as it was. *)
Theorem login_flow_raises_NameError (e : env) (s : state) :
  do_login_flow e s = (Raise (NameError "FUNCX_SCOPE"), s).
Proof. reflexivity. Qed.

Lemma bind_ret {X Y} (x : X) (f : X -> A Y) (s : state) :
  bind (ret x) f s = f x s.
Proof. reflexivity. Qed.

Lemma bind_run {X Y} (m : A X) (f : X -> A Y) (s : state) :
  bind m f s =
  match m s with
  | (Ok x, s') => f x s'
  | (Raise x, s') => (Raise x, s')
  | (SysExit c, s') => (SysExit c, s')
  | (OutOfFuel, s') => (OutOfFuel, s')
  end.
Proof. reflexivity. Qed.

(** ** Revocation leaves the local store alone *)








(** C4. When the store holds a refresh token and an access token and the
    revocation of the refresh token raises a network error, [logout]
    returns at once: the store is left as it was, so the refresh token,
    the access token and the expiry are still there; the only request
    sent is the one for the refresh token, which a later [logout] finds
    again. *)
Theorem logout_network_error_keeps_tokens
    (e : env) (s : state) (rt at_ : json) :
  store s !! PAROPT_RT_OPTNAME e = Some rt ->
  truthy rt = true ->
  store s !! PAROPT_AT_OPTNAME e = Some at_ ->
  truthy at_ = true ->
  oauth2_revoke_token e (List.length (revocations s)) rt = Raises NetworkError ->
  fst (logout e s) = Ok tt
  /\ store (snd (logout e s)) = store s
  /\ store (snd (logout e s)) !! PAROPT_RT_OPTNAME e = Some rt
  /\ store (snd (logout e s)) !! PAROPT_AT_OPTNAME e = Some at_
  /\ store (snd (logout e s)) !! PAROPT_AT_EXPIRES_OPTNAME e
     = store s !! PAROPT_AT_EXPIRES_OPTNAME e
  /\ revocations (snd (logout e s)) = revocations s ++ [rt]
  /\ printed (snd (logout e s)) = printed s ++ [cancelling_logout]
  /\ fst (lookup_option (PAROPT_RT_OPTNAME e) (snd (logout e s))) = Ok rt.
Proof.
  intros Hrt Trt Hat Tat Hrev.
  assert (H : logout e s
              = (Ok tt, {| store := store s;
                           revocations := revocations s ++ [rt];
                           printed := printed s ++ [cancelling_logout];
                           flow := flow s |})).
  { unfold logout, logout_each, logout_token, bind, lookup_option,
      except_NetworkError, revoke_token, call.
    rewrite Hrt. simpl. rewrite Trt. simpl. rewrite Hrev. reflexivity. }
  rewrite H. simpl. unfold lookup_option. simpl. rewrite Hrt.
  repeat split; assumption.
Qed.

(** The scenario of C4: both tokens stored, the identity provider out of
    reach. *)
Lemma logout_network_error_keeps_tokens_witness :
  fst (logout e_offline s_logged_in) = Ok tt
  /\ store (snd (logout e_offline s_logged_in)) = store s_logged_in.
Proof.
  destruct (logout_network_error_keeps_tokens
              e_offline s_logged_in (JStr "old_rt") (JStr "old_at")
              eq_refl eq_refl eq_refl eq_refl eq_refl) as (H1 & H2 & _).
  split; assumption.
Defined.

End AuthFacts.

(* ================================================================== *)
(** * More properties of the poller                                    *)
(* ================================================================== *)

Module PollerMore.
Import Cli Poller Records PollerFacts.

Lemma wait_body_ends (w : world) (k : nat) (st : wait_locals) :
  (exists st', snd (wait_body w k st) = Ok (Continue st')
               /\ (st' = st \/ st' = count_fail st))
  \/ (exists b, snd (wait_body w k st) = Ok (Return b))
  \/ (exists e, snd (wait_body w k st) = Raise e).
Proof.
  unfold wait_body, time_sleep.
  destruct (sleep_interval_secs st <? 0); [right; right; eexists; reflexivity|].
  destruct (getRunningExperiments w k) as [r|e];
    [|right; right; eexists; reflexivity].
  simpl. destruct (httpOK r); simpl;
    [|left; eexists; split; [reflexivity|right; reflexivity]].
  destruct (data r) as [| | | |jobs|d]; simpl;
    try (left; eexists; split; [reflexivity|right; reflexivity]).
  destruct (job_running_cases (job_id st) jobs) as [[b ->]|[e ->]].
  - destruct b; simpl.
    + left. eexists. split; [reflexivity|left; reflexivity].
    + right. left. eexists. reflexivity.
  - right. right. eexists. reflexivity.
Qed.

Lemma wait_failed_raises (st : wait_locals) :
  exists e, wait_failed st = ([], Raise e).
Proof.
  unfold wait_failed. destruct (n_fails st =? MAX_FAILS); eexists; reflexivity.
Qed.

Lemma wait_loop_ends (w : world) (m : nat) :
  forall (k : nat) (st : wait_locals) (fuel : nat),
    (timeout st <= time_time w (S (m + k)))%Q ->
    (m < fuel)%nat ->
    snd (wait_loop w fuel k st) <> OutOfFuel
    /\ (polls_made (fst (wait_loop w fuel k st)) <= m)%nat.
Proof.
  induction m as [|m IH]; intros k st fuel Ht Hf;
    (destruct fuel as [|fuel]; [lia|]).
  - rewrite wait_loop_exit by (apply wait_guard_false; left; exact Ht).
    destruct (wait_failed_raises st) as [e ->]. simpl. split; [discriminate|lia].
  - simpl. destruct (wait_guard w k st).
    2:{ destruct (wait_failed_raises st) as [e ->]. simpl.
        split; [discriminate|lia]. }
    rewrite bind_fst_snd. pose proof (wait_body_polls w k st) as Hp.
    assert (Hp1 : (polls_made (fst (wait_body w k st)) <= 1)%nat).
    { rewrite Hp. destruct (sleep_interval_secs st <? 0); lia. }
    destruct (wait_body_ends w k st) as [(st' & -> & Hst)|[[b ->]|[e ->]]].
    + destruct (IH (S k) st' fuel) as [Hne Hle].
      * replace (m + S k)%nat with (S m + k)%nat by lia.
        destruct Hst as [->| ->]; exact Ht.
      * lia.
      * simpl. rewrite polls_made_app. split; [exact Hne|lia].
    + simpl. rewrite polls_made_app. simpl. split; [discriminate|lia].
    + simpl. split; [discriminate|lia].
Qed.

(** X1. The wait always ends: once the clock is read at or past the
    deadline, at the [(k+1)]-th reading say, the run, given more than [k]
    passes, has ended (with a value or an exception) after at most [k]
    polls, whatever the service answers. *)
Theorem wait_ends_by_the_deadline
    (w : world) (id : json) (max_wait sleep_interval : Z) (k fuel : nat) :
  (deadline (time_time w 0) max_wait <= time_time w (S k))%Q ->
  (k < fuel)%nat ->
  snd (waitForJob w id max_wait sleep_interval fuel) <> OutOfFuel
  /\ (polls_made (fst (waitForJob w id max_wait sleep_interval fuel)) <= k)%nat.
Proof.
  intros Ht Hf. unfold waitForJob.
  apply (wait_loop_ends w k 0); [rewrite Nat.add_0_r; exact Ht|exact Hf].
Qed.

Lemma wait_ends_by_the_deadline_witness :
  snd (waitForJob Scenarios.w_flaky (JStr "job1") 2 1 3) <> OutOfFuel
  /\ (polls_made (fst (waitForJob Scenarios.w_flaky (JStr "job1") 2 1 3)) <= 1)%nat.
Proof.
  apply (wait_ends_by_the_deadline Scenarios.w_flaky (JStr "job1") 2 1 1 3).
  - unfold Qle. simpl. lia.
  - lia.
Defined.

(** X2. The counter of soft failures stays between 0 and [MAX_FAILS]:
    on every arrival at the guard of the loop it is at least 0 and at most
    3. *)
Theorem fail_counter_bounded
    (w : world) (id : json) (max_wait sleep_interval : Z) (n : nat)
    (st : wait_locals) :
  locals_after w 0 (wait_init w id max_wait sleep_interval) n = Some st ->
  0 <= n_fails st <= MAX_FAILS.
Proof.
  unfold MAX_FAILS. revert st. induction n as [|n IH]; intros st H.
  - simpl in H. injection H as <-. simpl. lia.
  - rewrite locals_after_last, Nat.add_0_r in H.
    destruct (locals_after w 0 (wait_init w id max_wait sleep_interval) n)
      as [st1|]; [|discriminate].
    specialize (IH st1 eq_refl).
    destruct (wait_guard w n st1) eqn:Hg; [|discriminate].
    apply wait_guard_true in Hg. destruct Hg as [_ Hlt].
    destruct (wait_body_ends w n st1) as [(st' & Hb & Hst)|[[b Hb]|[e Hb]]];
      rewrite Hb in H; try discriminate.
    injection H as <-. destruct Hst as [->| ->]; simpl; lia.
Qed.

Lemma fail_counter_bounded_witness :
  0 <= 2 <= MAX_FAILS.
Proof.
  exact (fail_counter_bounded Scenarios.w_flaky (JStr "job1") 10 1 4
           {| job_id := JStr "job1"; Cli.sleep_interval := 1;
              timeout := deadline (time_time Scenarios.w_flaky 0) 10;
              sleep_interval_secs := 60; n_fails := 2 |} eq_refl).
Defined.

(** ** The scan of the running list *)

Lemma job_running_scan (id : json) (jobs : list json) :
  Forall well_formed jobs ->
  job_running id jobs = ([], Ok (existsb (names id) jobs)).
Proof.
  induction 1 as [|job rest Hjob _ IH]; [reflexivity|].
  cbn [job_running existsb]. unfold names at 1. unfold well_formed, record_id in *.
  destruct job as [| | | |l|d]; try contradiction.
  unfold subscript, lift. destruct (assoc "job_id" d) as [v|]; [|contradiction].
  simpl. destruct (py_eq v id); [reflexivity|]. rewrite IH. reflexivity.
Qed.

(** X3. The scan stops at the first record that carries the job id: over
    records that are mappings with a ["job_id"], it answers [True] as soon
    as one of them carries the id, without looking at what follows, and
    goes on with the rest of the list otherwise. *)
Theorem job_running_stops_at_first_match
    (id : json) (pre rest : list json) :
  Forall well_formed pre ->
  job_running id (pre ++ rest)
  = if existsb (names id) pre then ([], Ok true) else job_running id rest.
Proof.
  induction 1 as [|job pre Hjob _ IH]; [reflexivity|].
  cbn [app job_running existsb]. unfold names at 1. unfold well_formed, record_id in *.
  destruct job as [| | | |l|d]; try contradiction.
  unfold subscript, lift. destruct (assoc "job_id" d) as [v|]; [|contradiction].
  simpl. destruct (py_eq v id); [reflexivity|]. rewrite IH.
  destruct (existsb (names id) pre); [reflexivity|].
  destruct (job_running id rest); reflexivity.
Qed.

Lemma job_running_stops_at_first_match_witness :
  job_running (JStr "job1")
    ([Scenarios.job_record "job0"; Scenarios.job_record "job1"] ++ [JNull])
  = ([], Ok true).
Proof.
  apply (job_running_stops_at_first_match (JStr "job1")
           [Scenarios.job_record "job0"; Scenarios.job_record "job1"] [JNull]).
  repeat constructor; discriminate.
Defined.

Lemma first_poll_gone
    (w : world) (id : json) (max_wait sleep_interval : Z) (r : response)
    (jobs : list json) (fuel : nat) :
  (time_time w 1 < deadline (time_time w 0) max_wait)%Q ->
  0 <= sleep_interval ->
  getRunningExperiments w 0 = Returns r ->
  httpOK r = true ->
  data r = JList jobs ->
  Forall well_formed jobs ->
  existsb (names id) jobs = false ->
  waitForJob w id max_wait sleep_interval (S fuel)
  = ([Print (going_to_sleep sleep_interval); Sleep (sleep_interval * 60);
      CallGetRunningExperiments; Print "Job finished running"], Ok true).
Proof.
  intros Ht Hs Hr Hok Hd Hwf Hex. unfold waitForJob. simpl.
  assert (Hg : wait_guard w 0 (wait_init w id max_wait sleep_interval) = true).
  { apply wait_guard_true. split; [exact Ht|reflexivity]. }
  rewrite Hg. unfold wait_body, time_sleep. simpl.
  destruct (sleep_interval * 60 <? 0) eqn:E; [apply Z.ltb_lt in E; lia|].
  rewrite Hr. simpl. rewrite Hok, Hd. simpl.
  rewrite (job_running_scan id jobs Hwf), Hex. reflexivity.
Qed.

(** X4. When the first running list the service returns (status 2xx, a
    list of mappings with a ["job_id"]) does not hold the job, the wait
    returns [True] after one sleep and one poll, with no soft failure
    counted. *)
Theorem job_gone_at_first_poll
    (w : world) (id : json) (max_wait sleep_interval : Z) (r : response)
    (jobs : list json) (fuel : nat) :
  (time_time w 1 < deadline (time_time w 0) max_wait)%Q ->
  0 <= sleep_interval ->
  getRunningExperiments w 0 = Returns r ->
  httpOK r = true ->
  data r = JList jobs ->
  Forall well_formed jobs ->
  existsb (names id) jobs = false ->
  waitForJob w id max_wait sleep_interval (S fuel)
  = ([Print (going_to_sleep sleep_interval); Sleep (sleep_interval * 60);
      CallGetRunningExperiments; Print "Job finished running"], Ok true).
Proof. exact (first_poll_gone w id max_wait sleep_interval r jobs fuel). Qed.

Lemma job_gone_at_first_poll_witness :
  waitForJob MoreScenarios.w_gone (JStr "job1") 5 1 1
  = ([Print (going_to_sleep 1); Sleep 60;
      CallGetRunningExperiments; Print "Job finished running"], Ok true).
Proof.
  apply (job_gone_at_first_poll MoreScenarios.w_gone (JStr "job1") 5 1
           {| http_status := 200; data := JList [Scenarios.job_record "job2"] |}
           [Scenarios.job_record "job2"] 0).
  - reflexivity.
  - lia.
  - reflexivity.
  - reflexivity.
  - reflexivity.
  - repeat constructor; discriminate.
  - reflexivity.
Defined.

(** ** Exceptions *)

Lemma loop_crashes (w : world) (e : exn) (m : nat) :
  forall (k : nat) (st : wait_locals) (fuel : nat),
    coherent st ->
    (forall i, (k <= i <= m + k)%nat -> (time_time w (S i) < timeout st)%Q) ->
    (forall i, (k <= i < m + k)%nat ->
               keeps_waiting (observe w (job_id st) (Cli.sleep_interval st) i)
               = true) ->
    observe w (job_id st) (Cli.sleep_interval st) (m + k) = Crashed e ->
    n_fails st
    + soft_failures w (job_id st) (Cli.sleep_interval st) (m + k)
    - soft_failures w (job_id st) (Cli.sleep_interval st) k < 3 ->
    (m < fuel)%nat ->
    snd (wait_loop w fuel k st) = Raise e.
Proof.
  induction m as [|m IH]; intros k st fuel Hc Ht Hk Hcr Hn Hf;
    (destruct fuel as [|fuel]; [lia|]).
  - simpl in Hcr, Hn.
    assert (Hg : wait_guard w k st = true).
    { apply wait_guard_true. split; [apply Ht|]; lia. }
    simpl. rewrite Hg, snd_bind, (wait_body_snd w k st Hc), Hcr. reflexivity.
  - pose proof (soft_failures_mono w (job_id st) (Cli.sleep_interval st)
                  k (S m + k) ltac:(lia)) as Hmono.
    assert (Hg : wait_guard w k st = true).
    { apply wait_guard_true. split; [apply Ht|]; lia. }
    destruct (keeps_waiting_body w k st Hc (Hk k ltac:(lia)))
      as (st' & Hb & Hc' & Hj & Hs & Ht' & Hn').
    rewrite (wait_loop_continue w fuel k st st' Hg Hb).
    replace (S m + k)%nat with (m + S k)%nat in * by lia.
    apply IH; try assumption; try lia.
    + intros i Hi. rewrite Ht'. apply Ht. lia.
    + intros i Hi. rewrite Hj, Hs. apply Hk. lia.
    + rewrite Hj, Hs. exact Hcr.
    + rewrite Hj, Hs. lia.
Qed.

(** X5. An exception met in a pass through the loop (raised by the query,
    by the sleep, or by the scan of a list with a record that has no
    ["job_id"]) is not counted as a soft failure: it ends the wait and is
    the exception the wait raises. *)
Theorem exception_ends_the_wait
    (w : world) (id : json) (max_wait sleep_interval : Z) (k fuel : nat)
    (e : exn) :
  (forall i, (i <= k)%nat ->
             (time_time w (S i) < deadline (time_time w 0) max_wait)%Q) ->
  (forall i, (i < k)%nat ->
             keeps_waiting (observe w id sleep_interval i) = true) ->
  soft_failures w id sleep_interval k < 3 ->
  observe w id sleep_interval k = Crashed e ->
  (k < fuel)%nat ->
  snd (waitForJob w id max_wait sleep_interval fuel) = Raise e.
Proof.
  intros Ht Hk Hn Hcr Hf. unfold waitForJob.
  apply (loop_crashes w e k 0); rewrite ?Nat.add_0_r; simpl.
  - reflexivity.
  - intros i Hi. apply Ht. lia.
  - intros i Hi. apply Hk. lia.
  - exact Hcr.
  - lia.
  - exact Hf.
Qed.

Lemma exception_ends_the_wait_witness :
  snd (waitForJob MoreScenarios.w_malformed (JStr "job1") 5 1 2)
  = Raise (KeyError "job_id").
Proof.
  apply (exception_ends_the_wait MoreScenarios.w_malformed (JStr "job1") 5 1 1 2).
  - intros i Hi. do 2 (destruct i as [|i]; [reflexivity|]). lia.
  - intros i Hi. destruct i as [|i]; [reflexivity|lia].
  - reflexivity.
  - reflexivity.
  - lia.
Defined.

(** ** Edge values of the two parameters *)

(** X6. With [max_wait = 0] and a clock that does not run backwards
    between its first two readings, the wait fails with the timeout at
    once: no line is printed, no sleep is taken, no poll is made. *)
Theorem zero_max_wait_times_out_at_once
    (w : world) (id : json) (sleep_interval : Z) (fuel : nat) :
  (time_time w 0 <= time_time w 1)%Q ->
  waitForJob w id 0 sleep_interval (S fuel)
  = ([], Raise reached_maximum_timeout).
Proof.
  intros Ht. unfold waitForJob.
  rewrite wait_loop_exit; [reflexivity|].
  apply wait_guard_false. left. simpl. unfold deadline. simpl.
  rewrite Qplus_0_r. exact Ht.
Qed.

Lemma zero_max_wait_times_out_at_once_witness :
  waitForJob Scenarios.w_stuck (JStr "job1") 0 1 1
  = ([], Raise reached_maximum_timeout).
Proof.
  apply (zero_max_wait_times_out_at_once Scenarios.w_stuck (JStr "job1") 1 0).
  unfold Qle. simpl. lia.
Defined.

(** X7. With a negative [sleep_interval] the first pass through the loop
    raises [ValueError] at the sleep: the line announcing the sleep is
    printed, no poll is made. *)
Theorem negative_sleep_interval_raises
    (w : world) (id : json) (max_wait sleep_interval : Z) (fuel : nat) :
  sleep_interval < 0 ->
  (time_time w 1 < deadline (time_time w 0) max_wait)%Q ->
  waitForJob w id max_wait sleep_interval (S fuel)
  = ([Print (going_to_sleep sleep_interval)], Raise ValueError).
Proof.
  intros Hs Ht. unfold waitForJob. simpl.
  assert (Hg : wait_guard w 0 (wait_init w id max_wait sleep_interval) = true).
  { apply wait_guard_true. split; [exact Ht|reflexivity]. }
  rewrite Hg. unfold wait_body, time_sleep. simpl.
  destruct (sleep_interval * 60 <? 0) eqn:E; [reflexivity|].
  apply Z.ltb_ge in E. lia.
Qed.

Lemma negative_sleep_interval_raises_witness :
  waitForJob Scenarios.w_stuck (JStr "job1") 5 (-1) 1
  = ([Print (going_to_sleep (-1))], Raise ValueError).
Proof.
  apply (negative_sleep_interval_raises Scenarios.w_stuck (JStr "job1") 5 (-1) 0).
  - lia.
  - reflexivity.
Defined.

(** ** Sleeps and polls *)

Lemma wait_body_sleeps (w : world) (k : nat) (st : wait_locals) :
  List.length (sleeps (fst (wait_body w k st)))
  = polls_made (fst (wait_body w k st)).
Proof.
  unfold wait_body, time_sleep.
  destruct (sleep_interval_secs st <? 0); [reflexivity|].
  destruct (getRunningExperiments w k) as [r|e]; [|reflexivity].
  simpl. destruct (httpOK r); simpl; [|reflexivity].
  destruct (data r) as [| | | |jobs|d]; simpl; try reflexivity.
  destruct (job_running_cases (job_id st) jobs) as [[b ->]|[e ->]].
  - destruct b; reflexivity.
  - reflexivity.
Qed.

Lemma wait_loop_sleeps (w : world) (fuel : nat) :
  forall (k : nat) (st : wait_locals),
    List.length (sleeps (fst (wait_loop w fuel k st)))
    = polls_made (fst (wait_loop w fuel k st)).
Proof.
  induction fuel as [|fuel IH]; intros k st; [reflexivity|].
  simpl. destruct (wait_guard w k st).
  2:{ rewrite wait_failed_fst. reflexivity. }
  rewrite bind_fst_snd. pose proof (wait_body_sleeps w k st) as Hb.
  destruct (snd (wait_body w k st)) as [[st'|b]| | |]; simpl;
    rewrite ?sleeps_app, ?polls_made_app, ?length_app, ?IH; simpl; lia.
Qed.

(** X8. In every run of the wait there are as many sleeps as polls of
    the running list, and each sleep lasts [sleep_interval * 60]
    seconds. *)
Theorem one_sleep_before_each_poll
    (w : world) (id : json) (max_wait sleep_interval : Z) (fuel : nat) :
  List.length (sleeps (fst (waitForJob w id max_wait sleep_interval fuel)))
  = polls_made (fst (waitForJob w id max_wait sleep_interval fuel))
  /\ Forall (fun secs => secs = sleep_interval * 60)
            (sleeps (fst (waitForJob w id max_wait sleep_interval fuel))).
Proof.
  split.
  - unfold waitForJob. apply wait_loop_sleeps.
  - apply CliFacts.sleeps_waitForJob.
Qed.

End PollerMore.

(* ================================================================== *)
(** * More properties of the workflow                                  *)
(* ================================================================== *)

Module CliMore.
Import Cli Poller Records Events PollerFacts PollerMore.

(** ** Traces *)

Lemma trace_bind {A B} (P : event -> Prop) (m : M A) (f : A -> M B) :
  Forall P (fst m) ->
  (forall a, snd m = Ok a -> Forall P (fst (f a))) ->
  Forall P (fst (bind m f)).
Proof.
  intros Hm Hf. rewrite bind_fst_snd.
  destruct (snd m) as [a| | |] eqn:E; simpl; try exact Hm.
  apply Forall_app. split; [exact Hm|apply Hf; reflexivity].
Qed.

Lemma trace_try_banner {A} (P : event -> Prop) (body : M A) :
  P error_banner ->
  Forall P (fst body) -> Forall P (fst (try_banner body)).
Proof.
  intros Hb H. destruct body as [t [a|e|c|]]; simpl in *; try exact H;
    apply Forall_app; split; try exact H; repeat constructor; exact Hb.
Qed.

Lemma trace_call {A} (P : event -> Prop) (ev : list event) (o : outcome A) :
  Forall P ev -> Forall P (fst (call ev o)).
Proof. intros H. destruct o; exact H. Qed.

Lemma trace_loadYmlJson (w : world) (path : string) :
  exists r, loadYmlJson w path = ([OpenFile path], r).
Proof.
  unfold loadYmlJson. destruct (open_file w path) as [f|e]; simpl.
  - destruct (endswith path ".yaml" || endswith path ".yml").
    + destruct (yaml_load w f); eexists; reflexivity.
    + destruct (endswith path ".json"); [|eexists; reflexivity].
      destruct (json_loads w f); eexists; reflexivity.
  - eexists. reflexivity.
Qed.

(** The program once both files are loaded as documents. *)
Lemma main_loaded (w : world) (a : args) (fuel : nat) (e o : json) :
  snd (loadYmlJson w (experiment a)) = Ok e ->
  py_eq e JNull = false ->
  snd (loadYmlJson w (optimizer a)) = Ok o ->
  py_eq o JNull = false ->
  main w a fuel
  = ([OpenFile (experiment a); OpenFile (optimizer a)]
     ++ fst (try_banner (workflow w a e o fuel)),
     snd (try_banner (workflow w a e o fuel))).
Proof.
  intros He Hen Ho Hon. unfold main.
  destruct (trace_loadYmlJson w (experiment a)) as [r1 H1].
  destruct (trace_loadYmlJson w (optimizer a)) as [r2 H2].
  rewrite H1, H2 in *. simpl in He, Ho. subst r1 r2. simpl.
  rewrite Hen. simpl. rewrite Hon. simpl.
  destruct (try_banner (workflow w a e o fuel)). reflexivity.
Qed.

(** ** Files *)

(** X9. A file that cannot be opened ends the program with the exception
    of [open], whatever its extension: nothing is printed, not even the
    message about file types, and the service is not contacted.  The same
    holds for the optimizer file once the experiment is loaded. *)
Theorem unreadable_file_raises (w : world) (a : args) (fuel : nat) (ex : exn) :
  (open_file w (experiment a) = Raises ex ->
   main w a fuel = ([OpenFile (experiment a)], Raise ex))
  /\ (forall e : json,
        snd (loadYmlJson w (experiment a)) = Ok e ->
        py_eq e JNull = false ->
        open_file w (optimizer a) = Raises ex ->
        main w a fuel
        = ([OpenFile (experiment a); OpenFile (optimizer a)], Raise ex)).
Proof.
  split.
  - intros H. unfold main, loadYmlJson. rewrite H. reflexivity.
  - intros e He Hen H. unfold main.
    destruct (trace_loadYmlJson w (experiment a)) as [r1 H1].
    rewrite H1 in *. simpl in He. subst r1. simpl. rewrite Hen. simpl.
    unfold loadYmlJson. rewrite H. reflexivity.
Qed.

Lemma unreadable_file_raises_witness :
  main MoreScenarios.w_no_file MoreScenarios.args_no_wait 0
  = ([OpenFile "e.yaml"], Raise (OSError "e.yaml")).
Proof.
  destruct (unreadable_file_raises MoreScenarios.w_no_file
              MoreScenarios.args_no_wait 0 (OSError "e.yaml")) as [H _].
  apply H. reflexivity.
Defined.

(** ** No wait asked for *)

Lemma waits_or_checks_loadYmlJson (w : world) (path : string) :
  Forall (fun ev => waits_or_checks ev = false) (fst (loadYmlJson w path)).
Proof.
  destruct (trace_loadYmlJson w path) as [r ->]. repeat constructor.
Qed.

Ltac quiet_leaf :=
  match goal with
  | |- Forall _ (fst (bind _ _)) => apply trace_bind; [|intros ? _]
  | |- Forall _ (fst (call _ _)) => apply trace_call
  | |- Forall _ (fst (loadYmlJson _ _)) => apply waits_or_checks_loadYmlJson
  | |- Forall _ (fst (try_banner _)) => apply trace_try_banner; [reflexivity|]
  | |- Forall _ (fst (if ?c then _ else _)) => destruct c
  | |- Forall _ (fst (match ?c with _ => _ end)) => destruct c
  | |- Forall _ _ => simpl; repeat constructor
  end.

(** X10. With [--maxwait 0] the program neither waits nor checks: in every
    run there is no sleep, no poll of the running list and no query of the
    failed experiments, and the run does not depend on the number of
    passes the loop is allowed. *)
Theorem zero_maxwait_does_not_wait (w : world) (a : args) (fuel : nat) :
  maxwait a = 0 ->
  Forall (fun ev => waits_or_checks ev = false) (fst (main w a fuel))
  /\ main w a fuel = main w a 0.
Proof.
  intros H. split.
  - unfold main, workflow. rewrite H.
    change (negb (0 =? 0)) with false. cbv iota.
    repeat quiet_leaf.
  - unfold main, workflow. rewrite H. reflexivity.
Qed.

Lemma zero_maxwait_does_not_wait_witness :
  main Scenarios.w_stuck MoreScenarios.args_no_wait 7
  = main Scenarios.w_stuck MoreScenarios.args_no_wait 0.
Proof.
  destruct (zero_maxwait_does_not_wait Scenarios.w_stuck
              MoreScenarios.args_no_wait 7 eq_refl) as [_ H].
  exact H.
Defined.

(** ** The check after the wait *)

Lemma raise_if_failed_clear (id : json) (exps : list json) :
  Forall well_formed exps ->
  existsb (names id) exps = false ->
  raise_if_failed id exps = ([], Ok tt).
Proof.
  induction 1 as [|exp rest Hexp _ IH]; [reflexivity|].
  cbn [raise_if_failed existsb]. unfold names at 1.
  unfold well_formed, record_id in *.
  destruct exp as [| | | |l|d]; try contradiction.
  unfold subscript, lift. destruct (assoc "job_id" d) as [v|]; [|contradiction].
  simpl. destruct (py_eq v id); [discriminate|].
  simpl. intros H. rewrite (IH H). reflexivity.
Qed.

Lemma raise_if_failed_found
    (id : json) (pre post : list json) (d : list (string * json)) (v : json) :
  Forall well_formed pre ->
  existsb (names id) pre = false ->
  assoc "job_id" d = Some v ->
  py_eq v id = true ->
  raise_if_failed id (pre ++ JDict d :: post)
  = ([], Raise (ServerFailed (default (JStr "") (assoc "job_exc_info" d)))).
Proof.
  intros Hpre Hex Hd Hv. induction Hpre as [|exp rest Hexp _ IH].
  - cbn [app raise_if_failed]. unfold subscript, lift, get_default.
    rewrite Hd. simpl. rewrite Hv.
    destruct (assoc "job_exc_info" d); reflexivity.
  - cbn [app raise_if_failed existsb] in *. unfold names at 1 in Hex.
    unfold well_formed, record_id in *.
    destruct exp as [| | | |l|d']; try contradiction.
    unfold subscript, lift.
    destruct (assoc "job_id" d') as [v'|]; [|contradiction].
    simpl. destruct (py_eq v' id); [discriminate|].
    simpl in Hex. rewrite (IH Hex). reflexivity.
Qed.

(** X11. A job named in the list of failed experiments is reported: when
    the payload is a list in which a record carrying the job id comes
    after records that are mappings with another ["job_id"], the check
    raises the exception made from that record's ["job_exc_info"] (the
    empty string when it has none), whatever the status code and whatever
    follows in the list, and "Successfully ran optimizations" is not
    printed. *)
Theorem failed_job_is_reported
    (w : world) (id : json) (r : response) (pre post : list json)
    (d : list (string * json)) (v : json) :
  getFailedExperiments w = Returns r ->
  data r = JList (pre ++ JDict d :: post) ->
  Forall well_formed pre ->
  existsb (names id) pre = false ->
  assoc "job_id" d = Some v ->
  py_eq v id = true ->
  snd (check_job_successful w id)
  = Raise (ServerFailed (default (JStr "") (assoc "job_exc_info" d)))
  /\ ~ In (Print "Successfully ran optimizations")
          (fst (check_job_successful w id)).
Proof.
  intros Hr Hd Hpre Hex Hj Hv.
  rewrite (CliFacts.check_job_successful_eq w id r Hr). rewrite Hd. simpl.
  rewrite (raise_if_failed_found id pre post d v Hpre Hex Hj Hv). simpl.
  split; [reflexivity|].
  destruct (httpOK r); simpl; intros H;
    repeat (destruct H as [H|H]; [discriminate|]); exact H.
Qed.

Lemma failed_job_is_reported_witness :
  snd (check_job_successful
         (Scenarios.w_failed_query MoreScenarios.r_failed_list) (JStr "job1"))
  = Raise (ServerFailed (JStr "Traceback")).
Proof.
  destruct (failed_job_is_reported
              (Scenarios.w_failed_query MoreScenarios.r_failed_list)
              (JStr "job1") MoreScenarios.r_failed_list
              [Scenarios.job_record "job0"] [JNull]
              [("job_id", JStr "job1"); ("job_exc_info", JStr "Traceback")]
              (JStr "job1") eq_refl eq_refl) as [H _].
  - repeat constructor; discriminate.
  - reflexivity.
  - reflexivity.
  - reflexivity.
  - exact H.
Defined.

Lemma unlisted_check
    (w : world) (id : json) (r : response) (exps : list json) :
  getFailedExperiments w = Returns r ->
  data r = JList exps ->
  Forall well_formed exps ->
  existsb (names id) exps = false ->
  check_job_successful w id
  = ([Print "---- Checking if job was successful ----";
      CallGetFailedExperiments]
     ++ (if httpOK r then []
         else [Print "Unable to get failed experiments, skipping..."])
     ++ [Print "Successfully ran optimizations"],
     Ok tt).
Proof.
  intros Hr Hd Hwf Hex.
  rewrite (CliFacts.check_job_successful_eq w id r Hr). rewrite Hd. simpl.
  rewrite (raise_if_failed_clear id exps Hwf Hex). reflexivity.
Qed.

(** X12. When the payload of [getFailedExperiments] is a list of mappings
    with a ["job_id"], none of which carries the job id, the check ends
    with "Successfully ran optimizations", whatever the status code: after
    a status outside 200-299 the only difference is the line announcing
    that the check is skipped. *)
Theorem unlisted_job_is_successful
    (w : world) (id : json) (r : response) (exps : list json) :
  getFailedExperiments w = Returns r ->
  data r = JList exps ->
  Forall well_formed exps ->
  existsb (names id) exps = false ->
  check_job_successful w id
  = ([Print "---- Checking if job was successful ----";
      CallGetFailedExperiments]
     ++ (if httpOK r then []
         else [Print "Unable to get failed experiments, skipping..."])
     ++ [Print "Successfully ran optimizations"],
     Ok tt).
Proof. exact (unlisted_check w id r exps). Qed.

Lemma unlisted_job_is_successful_witness :
  check_job_successful
    (Scenarios.w_failed_query MoreScenarios.r_down_list) (JStr "job1")
  = ([Print "---- Checking if job was successful ----";
      CallGetFailedExperiments;
      Print "Unable to get failed experiments, skipping...";
      Print "Successfully ran optimizations"],
     Ok tt).
Proof.
  apply (unlisted_job_is_successful
           (Scenarios.w_failed_query MoreScenarios.r_down_list) (JStr "job1")
           MoreScenarios.r_down_list [Scenarios.job_record "job0"]).
  - reflexivity.
  - reflexivity.
  - repeat constructor; discriminate.
  - reflexivity.
Defined.

(** ** Answers that stop the run *)

(** X13. When the service answers [getOrCreateExperiment] with a status
    outside 200-299, the program stops there: it prints the response and
    the error banner, raises the exception for the failed creation, and
    never calls [runTrial]. *)
Theorem experiment_refused_stops_the_run
    (w : world) (a : args) (fuel : nat) (e o : json) (exp_res : response) :
  snd (loadYmlJson w (experiment a)) = Ok e ->
  py_eq e JNull = false ->
  snd (loadYmlJson w (optimizer a)) = Ok o ->
  py_eq o JNull = false ->
  ParoptClient w = Returns tt ->
  getOrCreateExperiment w e = Returns exp_res ->
  httpOK exp_res = false ->
  main w a fuel
  = (creating a e exp_res ++ [error_banner],
     Raise (PyException "Failed to create experiment (status code not ok)")).
Proof.
  intros He Hen Ho Hon Hc Hx Hok.
  rewrite (main_loaded w a fuel e o He Hen Ho Hon).
  unfold workflow. rewrite Hc, Hx. simpl. rewrite Hok. reflexivity.
Qed.

Lemma experiment_refused_stops_the_run_witness :
  snd (main (MoreScenarios.w_experiment MoreScenarios.r_forbidden)
            Scenarios.args_sleepdur_3 3)
  = Raise (PyException "Failed to create experiment (status code not ok)").
Proof.
  rewrite (experiment_refused_stops_the_run
             (MoreScenarios.w_experiment MoreScenarios.r_forbidden)
             Scenarios.args_sleepdur_3 3
             MoreScenarios.demo_doc MoreScenarios.demo_doc
             MoreScenarios.r_forbidden
             eq_refl eq_refl eq_refl eq_refl eq_refl eq_refl eq_refl).
  reflexivity.
Defined.

(** X14. A 2xx answer to [getOrCreateExperiment] without a usable id stops
    the run before [runTrial]: a mapping whose ["id"] is missing or false
    ([None], the empty string, 0) raises the exception saying that the
    response should contain the id, and a payload that is not a mapping
    raises [AttributeError]. *)
Theorem experiment_without_id_stops_the_run
    (w : world) (a : args) (fuel : nat) (e o : json) (exp_res : response) :
  snd (loadYmlJson w (experiment a)) = Ok e ->
  py_eq e JNull = false ->
  snd (loadYmlJson w (optimizer a)) = Ok o ->
  py_eq o JNull = false ->
  ParoptClient w = Returns tt ->
  getOrCreateExperiment w e = Returns exp_res ->
  httpOK exp_res = true ->
  (forall d : list (string * json),
      data exp_res = JDict d ->
      truthy (default JNull (assoc "id" d)) = false ->
      main w a fuel
      = (creating a e exp_res ++ [error_banner],
         Raise (PyException "Expected experiment response to contain 'id'")))
  /\ ((forall d, data exp_res <> JDict d) ->
      main w a fuel
      = (creating a e exp_res ++ [error_banner],
         Raise (AttributeError "get"))).
Proof.
  intros He Hen Ho Hon Hc Hx Hok.
  rewrite (main_loaded w a fuel e o He Hen Ho Hon).
  unfold workflow. rewrite Hc, Hx. simpl. rewrite Hok. simpl. split.
  - intros d Hd Hid. rewrite Hd. simpl.
    destruct (assoc "id" d) as [v|]; simpl in *; [rewrite Hid|]; reflexivity.
  - intros Hd. destruct (data exp_res) as [| | | | |d]; try reflexivity.
    contradiction (Hd d). reflexivity.
Qed.

Lemma experiment_without_id_stops_the_run_witness :
  snd (main (MoreScenarios.w_experiment MoreScenarios.r_no_id)
            Scenarios.args_sleepdur_3 3)
  = Raise (PyException "Expected experiment response to contain 'id'").
Proof.
  destruct (experiment_without_id_stops_the_run
              (MoreScenarios.w_experiment MoreScenarios.r_no_id)
              Scenarios.args_sleepdur_3 3
              MoreScenarios.demo_doc MoreScenarios.demo_doc
              MoreScenarios.r_no_id
              eq_refl eq_refl eq_refl eq_refl eq_refl eq_refl eq_refl)
    as [H _].
  rewrite (H [("name", JStr "demo")] eq_refl eq_refl). reflexivity.
Defined.

(** X15. When the service answers [runTrial] with a status outside
    200-299, the program raises the exception for the failed trial, made
    from the payload of the answer, after the error banner, and does not
    wait: there is no sleep, no poll and no query of the failed
    experiments. *)
Theorem trial_refused_stops_the_run
    (w : world) (a : args) (fuel : nat) (e o exp_id : json)
    (exp_res trial_res : response) :
  snd (loadYmlJson w (experiment a)) = Ok e ->
  py_eq e JNull = false ->
  snd (loadYmlJson w (optimizer a)) = Ok o ->
  py_eq o JNull = false ->
  ParoptClient w = Returns tt ->
  getOrCreateExperiment w e = Returns exp_res ->
  httpOK exp_res = true ->
  get_default (data exp_res) "id" JNull = Ok exp_id ->
  truthy exp_id = true ->
  runTrial w exp_id o = Returns trial_res ->
  httpOK trial_res = false ->
  main w a fuel
  = (creating a e exp_res ++ submitting exp_id o trial_res ++ [error_banner],
     Raise (TrialFailed (data trial_res))).
Proof.
  intros He Hen Ho Hon Hc Hx Hok Hid Hty Hr Hrok.
  rewrite (main_loaded w a fuel e o He Hen Ho Hon).
  unfold workflow. rewrite Hc, Hx. simpl. rewrite Hok. simpl.
  rewrite Hid. simpl. rewrite Hty. simpl. rewrite Hr. simpl.
  rewrite Hrok. reflexivity.
Qed.

Lemma trial_refused_stops_the_run_witness :
  snd (main (MoreScenarios.w_experiment MoreScenarios.r_exp1)
            Scenarios.args_sleepdur_3 3)
  = Raise (TrialFailed (JStr "busy")).
Proof.
  rewrite (trial_refused_stops_the_run
             (MoreScenarios.w_experiment MoreScenarios.r_exp1)
             Scenarios.args_sleepdur_3 3
             MoreScenarios.demo_doc MoreScenarios.demo_doc (JStr "exp1")
             MoreScenarios.r_exp1 {| http_status := 503; data := JStr "busy" |}
             eq_refl eq_refl eq_refl eq_refl eq_refl eq_refl eq_refl
             eq_refl eq_refl eq_refl eq_refl).
  reflexivity.
Defined.

(** ** A run that succeeds *)

(** X16. The run of the specification's scenario: both files load, the
    experiment is created with an id, the trial is submitted and answers
    with a job id, the job is gone from the running list at the first poll
    and is not among the failed experiments (both lists being lists of
    mappings with a ["job_id"], answered with a 2xx status).  Then the
    program sleeps one minute once, polls once, prints "Job finished
    running", "Successfully ran optimizations" and "---- Finished ----",
    and ends without an exception. *)
Theorem job_submitted_and_finished
    (w : world) (a : args) (fuel : nat) (e o exp_id job id : json)
    (exp_res trial_res r fr : response) (jobs fexps : list json) :
  snd (loadYmlJson w (experiment a)) = Ok e ->
  py_eq e JNull = false ->
  snd (loadYmlJson w (optimizer a)) = Ok o ->
  py_eq o JNull = false ->
  ParoptClient w = Returns tt ->
  getOrCreateExperiment w e = Returns exp_res ->
  httpOK exp_res = true ->
  get_default (data exp_res) "id" JNull = Ok exp_id ->
  truthy exp_id = true ->
  runTrial w exp_id o = Returns trial_res ->
  httpOK trial_res = true ->
  get_default (data trial_res) "job" (JDict []) = Ok job ->
  get_default job "job_id" JNull = Ok id ->
  maxwait a <> 0 ->
  (time_time w 1 < deadline (time_time w 0) (maxwait a))%Q ->
  getRunningExperiments w 0 = Returns r ->
  httpOK r = true ->
  data r = JList jobs ->
  Forall well_formed jobs ->
  existsb (names id) jobs = false ->
  getFailedExperiments w = Returns fr ->
  httpOK fr = true ->
  data fr = JList fexps ->
  Forall well_formed fexps ->
  existsb (names id) fexps = false ->
  main w a (S fuel)
  = (creating a e exp_res ++ submitting exp_id o trial_res ++ waiting_once,
     Ok tt).
Proof.
  intros He Hen Ho Hon Hc Hx Hok Hid Hty Hr Hrok Hjob Hjid Hmw Ht
         Hp Hpok Hpd Hpwf Hpex Hf Hfok Hfd Hfwf Hfex.
  rewrite (main_loaded w a (S fuel) e o He Hen Ho Hon).
  unfold workflow. rewrite Hc, Hx. simpl. rewrite Hok. simpl.
  rewrite Hid. simpl. rewrite Hty. simpl. rewrite Hr. simpl.
  rewrite Hrok. simpl. rewrite Hjob. simpl. rewrite Hjid. simpl.
  destruct (maxwait a =? 0) eqn:E; [apply Z.eqb_eq in E; contradiction|].
  simpl.
  rewrite (first_poll_gone w id (maxwait a) sleep_interval_default r jobs fuel
             Ht ltac:(unfold sleep_interval_default; lia) Hp Hpok Hpd Hpwf Hpex).
  rewrite (unlisted_check w id fr fexps Hf Hfd Hfwf Hfex), Hfok.
  reflexivity.
Qed.

Lemma job_submitted_and_finished_witness :
  main MoreScenarios.w_gone Scenarios.args_sleepdur_3 1
  = (creating Scenarios.args_sleepdur_3 MoreScenarios.demo_doc
       MoreScenarios.r_exp1
     ++ submitting (JStr "exp1") MoreScenarios.demo_doc
          {| http_status := 200;
             data := JDict [("job", Scenarios.job_record "job1")] |}
     ++ waiting_once,
     Ok tt).
Proof.
  apply (job_submitted_and_finished
           MoreScenarios.w_gone Scenarios.args_sleepdur_3 0
           MoreScenarios.demo_doc MoreScenarios.demo_doc (JStr "exp1")
           (Scenarios.job_record "job1") (JStr "job1")
           MoreScenarios.r_exp1
           {| http_status := 200;
              data := JDict [("job", Scenarios.job_record "job1")] |}
           {| http_status := 200; data := JList [Scenarios.job_record "job2"] |}
           {| http_status := 200; data := JList [] |}
           [Scenarios.job_record "job2"] []);
    try reflexivity; try discriminate;
    repeat constructor; discriminate.
Defined.

(** ** The documents handed to the service *)

Lemma wait_body_events (w : world) (k : nat) (st : wait_locals) :
  Forall wait_event (fst (wait_body w k st)).
Proof.
  unfold wait_body, time_sleep.
  destruct (sleep_interval_secs st <? 0); [repeat constructor|].
  destruct (getRunningExperiments w k) as [r|e]; [|repeat constructor].
  simpl. destruct (httpOK r); simpl; [|repeat constructor].
  destruct (data r) as [| | | |jobs|d]; simpl; try (repeat constructor).
  destruct (job_running_cases (job_id st) jobs) as [[b ->]|[e ->]].
  - destruct b; repeat constructor.
  - repeat constructor.
Qed.

Lemma wait_loop_events (w : world) (fuel : nat) :
  forall (k : nat) (st : wait_locals),
    Forall wait_event (fst (wait_loop w fuel k st)).
Proof.
  induction fuel as [|fuel IH]; intros k st; [constructor|].
  simpl. destruct (wait_guard w k st).
  2:{ rewrite wait_failed_fst. constructor. }
  apply trace_bind; [apply wait_body_events|].
  intros [st'|b] _; [apply IH|constructor].
Qed.

Lemma raise_if_failed_fst (id : json) (exps : list json) :
  fst (raise_if_failed id exps) = [].
Proof.
  induction exps as [|exp rest IH]; [reflexivity|].
  cbn [raise_if_failed]. unfold lift.
  destruct (subscript exp "job_id") as [v| | |]; simpl; try reflexivity.
  destruct (py_eq v id); simpl.
  - destruct (get_default exp "job_exc_info" (JStr "")); reflexivity.
  - destruct (raise_if_failed id rest). simpl in *. exact IH.
Qed.

Ltac submits_leaf :=
  match goal with
  | |- Forall _ (fst (bind _ _)) => apply trace_bind; [|intros ? _]
  | |- Forall _ (fst (call _ _)) => apply trace_call
  | |- Forall _ (fst (waitForJob _ _ _ _ _)) =>
      unfold waitForJob;
      eapply List.Forall_impl; [|apply wait_loop_events];
      intros ev H; destruct ev; simpl in H; try exact I; contradiction
  | |- Forall _ (fst (raise_if_failed _ _)) =>
      rewrite raise_if_failed_fst; constructor
  | |- Forall _ (fst (if ?c then _ else _)) => destruct c
  | |- Forall _ (fst (match ?c with _ => _ end)) => destruct c
  | |- Forall _ _ => simpl; repeat constructor
  end.

Lemma workflow_submits (w : world) (a : args) (e o : json) (fuel : nat) :
  Forall (submits e o) (fst (workflow w a e o fuel)).
Proof. unfold workflow, check_job_successful. repeat submits_leaf. Qed.

(** X17. The documents go to the service as they were parsed: in every
    run, whatever is handed to [getOrCreateExperiment] is the document
    [loadYmlJson] returned for the experiment file, and whatever is handed
    to [runTrial] as optimizer is the document it returned for the
    optimizer file, from a YAML file or a JSON file alike. *)
Theorem documents_pass_through
    (w : world) (a : args) (fuel : nat) (e o : json) :
  snd (loadYmlJson w (experiment a)) = Ok e ->
  snd (loadYmlJson w (optimizer a)) = Ok o ->
  Forall (submits e o) (fst (main w a fuel)).
Proof.
  intros He Ho. unfold main.
  destruct (trace_loadYmlJson w (experiment a)) as [r1 H1].
  destruct (trace_loadYmlJson w (optimizer a)) as [r2 H2].
  rewrite H1, H2 in *. simpl in He, Ho. subst r1 r2.
  apply trace_bind; [repeat constructor|]. intros e' [= <-].
  apply trace_bind; [destruct (py_eq e JNull); repeat submits_leaf|].
  intros _ _.
  apply trace_bind; [repeat constructor|]. intros o' [= <-].
  apply trace_bind; [destruct (py_eq o JNull); repeat submits_leaf|].
  intros _ _.
  apply trace_try_banner; [exact I|apply workflow_submits].
Qed.

Lemma documents_pass_through_witness :
  Forall (submits MoreScenarios.demo_doc MoreScenarios.demo_doc)
         (fst (main MoreScenarios.w_gone Scenarios.args_sleepdur_3 1)).
Proof.
  apply (documents_pass_through MoreScenarios.w_gone Scenarios.args_sleepdur_3 1
           MoreScenarios.demo_doc MoreScenarios.demo_doc);
    reflexivity.
Defined.

End CliMore.

(* ================================================================== *)
(** * More properties of the credential manager                        *)
(* ================================================================== *)

Module AuthMore.
Import Auth Credentials Authorizer AuthFacts.

(** ** The authorizer *)

(** X18. Without stored credentials no authorizer is made: when
    [check_logged_in] answers no, [make_authorizer] prints that one must
    log in and then raises the [NameError] of the login flow; the store is
    left as it was and the identity provider is not contacted. *)
Theorem make_authorizer_needs_login (e : env) (h : host) (s : state) :
  check_logged_in h (store s) = false ->
  fst (make_authorizer e h s) = Raise (NameError "FUNCX_SCOPE")
  /\ store (snd (make_authorizer e h s)) = store s
  /\ revocations (snd (make_authorizer e h s)) = revocations s
  /\ flow (snd (make_authorizer e h s)) = flow s
  /\ printed (snd (make_authorizer e h s)) = printed s ++ [no_credentials].
Proof.
  intros H. unfold make_authorizer. rewrite bind_run. rewrite H.
  cbn [negb]. rewrite bind_run. rewrite bind_run. unfold safeprint at 1.
  cbv beta iota. auto.
Qed.

Lemma make_authorizer_needs_login_witness :
  fst (make_authorizer e_online h_demo s_empty) = Raise (NameError "FUNCX_SCOPE").
Proof.
  destruct (make_authorizer_needs_login e_online h_demo s_empty eq_refl)
    as [H _].
  exact H.
Defined.

(** X19. With stored credentials the authorizer is made from the store
    alone: when [check_logged_in] answers yes and the stored expiry
    converts to an integer, [make_authorizer] returns the stored refresh
    token, the stored access token and that integer, and leaves the state
    as it was (nothing printed, no request sent, no flow started). *)
Theorem make_authorizer_reads_the_store
    (e : env) (h : host) (s : state) (n : Z) :
  check_logged_in h (store s) = true ->
  py_int h (default JNull (store s !! PAROPT_AT_EXPIRES_OPTNAME e)) = Returns n ->
  make_authorizer e h s
  = (Ok {| rf_token := default JNull (store s !! PAROPT_RT_OPTNAME e);
           at_token := default JNull (store s !! PAROPT_AT_OPTNAME e);
           at_expires := n |}, s).
Proof.
  intros H Hn. unfold make_authorizer. rewrite bind_run. rewrite H.
  cbn [negb]. unfold bind, lookup_option, ret. cbv beta iota.
  rewrite Hn. reflexivity.
Qed.

Lemma make_authorizer_reads_the_store_witness :
  make_authorizer e_online h_demo s_logged_in
  = (Ok {| rf_token := JStr "old_rt"; at_token := JStr "old_at";
           at_expires := 1600000000 |}, s_logged_in).
Proof.
  exact (make_authorizer_reads_the_store e_online h_demo s_logged_in
           1600000000 eq_refl eq_refl).
Defined.

(** ** Storing the tokens *)

Lemma store_config_run (e : env) (rt at_ expires : json) (s : state) :
  _store_config e (token_response rt at_ expires) s
  = (Ok tt,
     {| store := <[PAROPT_AT_EXPIRES_OPTNAME e := expires]>
                 (<[PAROPT_AT_OPTNAME e := at_]>
                  (<[PAROPT_RT_OPTNAME e := rt]> (store s)));
        revocations := revocations s;
        printed := printed s;
        flow := flow s |}).
Proof. reflexivity. Qed.

(** X20. What [_store_config] writes can be read back: with three
    different option names and a token response that holds the three
    fields, it returns normally and the store then has the refresh token,
    the access token and the expiry under their names, every other entry
    being as before; nothing is printed and no request is sent. *)
Theorem store_config_round_trip
    (e : env) (rt at_ expires : json) (s : state) :
  distinct_names e ->
  fst (_store_config e (token_response rt at_ expires) s) = Ok tt
  /\ fst (lookup_option (PAROPT_RT_OPTNAME e)
            (snd (_store_config e (token_response rt at_ expires) s))) = Ok rt
  /\ fst (lookup_option (PAROPT_AT_OPTNAME e)
            (snd (_store_config e (token_response rt at_ expires) s))) = Ok at_
  /\ fst (lookup_option (PAROPT_AT_EXPIRES_OPTNAME e)
            (snd (_store_config e (token_response rt at_ expires) s)))
     = Ok expires
  /\ (forall k : string,
        k <> PAROPT_RT_OPTNAME e -> k <> PAROPT_AT_OPTNAME e ->
        k <> PAROPT_AT_EXPIRES_OPTNAME e ->
        store (snd (_store_config e (token_response rt at_ expires) s)) !! k
        = store s !! k)
  /\ revocations (snd (_store_config e (token_response rt at_ expires) s))
     = revocations s
  /\ printed (snd (_store_config e (token_response rt at_ expires) s))
     = printed s.
Proof.
  intros (H1 & H2 & H3). rewrite store_config_run. unfold lookup_option.
  cbn [fst snd store revocations printed].
  repeat split.
  - rewrite lookup_insert_ne, lookup_insert_ne, lookup_insert_eq by congruence.
    reflexivity.
  - rewrite lookup_insert_ne, lookup_insert_eq by congruence. reflexivity.
  - rewrite lookup_insert_eq. reflexivity.
  - intros k Hk1 Hk2 Hk3. rewrite !lookup_insert_ne by congruence. reflexivity.
Qed.

Lemma store_config_round_trip_witness :
  fst (lookup_option "paropt_rt"
         (snd (_store_config e_online
                 (token_response (JStr "new_rt") (JStr "new_at")
                                 (JInt 1700000000)) s_logged_in)))
  = Ok (JStr "new_rt").
Proof.
  destruct (store_config_round_trip e_online (JStr "new_rt") (JStr "new_at")
              (JInt 1700000000) s_logged_in) as (_ & H & _).
  - repeat split; discriminate.
  - exact H.
Defined.

(** X21. [_store_config] writes all three options or none: it reads the
    three fields of the token response before the first write.  When the
    response holds the three fields, the refresh token, the access token
    and the expiry are written under their names and nothing else
    changes; when it lacks one of them (or is not a mapping where one is
    expected) the call raises [KeyError] (or [TypeError]) and leaves the
    state as it was. *)
Theorem store_config_all_or_nothing (e : env) (tkn : json) (s : state) :
  match Tokens.token_fields tkn with
  | Some (rt, at_, expires) =>
      _store_config e tkn s
      = (Ok tt,
         {| store := <[PAROPT_AT_EXPIRES_OPTNAME e := expires]>
                     (<[PAROPT_AT_OPTNAME e := at_]>
                      (<[PAROPT_RT_OPTNAME e := rt]> (store s)));
            revocations := revocations s;
            printed := printed s;
            flow := flow s |})
  | None =>
      (fst (_store_config e tkn s) = Raise TypeError
       \/ exists k, fst (_store_config e tkn s) = Raise (KeyError k))
      /\ snd (_store_config e tkn s) = s
  end.
Proof.
  unfold Tokens.token_fields, _store_config, bind, lift, subscript,
    write_option, set_store.
  destruct tkn as [| | | | |d]; try (split; [left|]; reflexivity).
  destruct (assoc "paropt_service" d) as [svc|];
    [|split; [right; eexists|]; reflexivity].
  destruct svc as [| | | | |f]; try (split; [left|]; reflexivity).
  destruct (assoc "access_token" f);
    [|split; [right; eexists|]; reflexivity].
  destruct (assoc "refresh_token" f);
    [|split; [right; eexists|]; reflexivity].
  destruct (assoc "expires_at_seconds" f);
    [|split; [right; eexists|]; reflexivity].
  reflexivity.
Qed.

(** ** Logging out *)

(** One pass through the loop of [logout], by cases. *)
Lemma logout_token_run (e : env) (token_opt : string) (s : state) :
  logout_token e token_opt s =
  let token := default JNull (store s !! token_opt) in
  if truthy token then
    match oauth2_revoke_token e (List.length (revocations s)) token with
    | Returns _ =>
        (Ok LoopNext,
         {| store := delete token_opt (store s);
            revocations := revocations s ++ [token];
            printed := printed s;
            flow := flow s |})
    | Raises NetworkError =>
        (Ok LoopReturn,
         {| store := store s;
            revocations := revocations s ++ [token];
            printed := printed s ++ [cancelling_logout];
            flow := flow s |})
    | Raises ex =>
        (Raise ex,
         {| store := store s;
            revocations := revocations s ++ [token];
            printed := printed s;
            flow := flow s |})
    end
  else
    (Ok LoopNext,
     {| store := store s;
        revocations := revocations s;
        printed := printed s ++ [no_token_warning token_opt];
        flow := flow s |}).
Proof.
  unfold logout_token, bind, lookup_option, except_NetworkError, revoke_token,
    call. simpl.
  destruct (truthy (default JNull (store s !! token_opt))); simpl;
    [|reflexivity].
  destruct (oauth2_revoke_token e _ _) as [[]|ex]; simpl; [reflexivity|].
  destruct ex; reflexivity.
Qed.

Lemma logout_run (e : env) (s : state) :
  logout e s =
  match logout_token e (PAROPT_RT_OPTNAME e) s with
  | (Ok LoopNext, s1) =>
      match logout_token e (PAROPT_AT_OPTNAME e) s1 with
      | (Ok LoopNext, s2) =>
          (Ok tt, set_store (delete (PAROPT_AT_EXPIRES_OPTNAME e) (store s2)) s2)
      | (Ok LoopReturn, s2) => (Ok tt, s2)
      | (Raise ex, s2) => (Raise ex, s2)
      | (SysExit c, s2) => (SysExit c, s2)
      | (OutOfFuel, s2) => (OutOfFuel, s2)
      end
  | (Ok LoopReturn, s1) => (Ok tt, s1)
  | (Raise ex, s1) => (Raise ex, s1)
  | (SysExit c, s1) => (SysExit c, s1)
  | (OutOfFuel, s1) => (OutOfFuel, s1)
  end.
Proof.
  unfold logout, logout_each, bind, remove_option, ret.
  destruct (logout_token e (PAROPT_RT_OPTNAME e) s) as [[[]| | |] s1];
    try reflexivity.
  destruct (logout_token e (PAROPT_AT_OPTNAME e) s1) as [[[]| | |] s2];
    reflexivity.
Qed.

Lemma logout_both_revoked (e : env) (s : state) (rt at_ : json) :
  PAROPT_RT_OPTNAME e <> PAROPT_AT_OPTNAME e ->
  store s !! PAROPT_RT_OPTNAME e = Some rt ->
  truthy rt = true ->
  store s !! PAROPT_AT_OPTNAME e = Some at_ ->
  truthy at_ = true ->
  oauth2_revoke_token e (List.length (revocations s)) rt = Returns tt ->
  oauth2_revoke_token e (S (List.length (revocations s))) at_ = Returns tt ->
  logout e s
  = (Ok tt,
     {| store := delete (PAROPT_AT_EXPIRES_OPTNAME e)
                   (delete (PAROPT_AT_OPTNAME e)
                      (delete (PAROPT_RT_OPTNAME e) (store s)));
        revocations := revocations s ++ [rt; at_];
        printed := printed s;
        flow := flow s |}).
Proof.
  intros Hne Hrt Trt Hat Tat Hr1 Hr2.
  rewrite logout_run, logout_token_run. cbv zeta. rewrite Hrt. simpl.
  rewrite Trt, Hr1. rewrite logout_token_run. cbv zeta.
  cbn [store revocations printed flow].
  rewrite lookup_delete_ne by exact Hne. rewrite Hat. simpl.
  rewrite Tat, length_app, Nat.add_1_r, Hr2.
  unfold set_store. cbn [store revocations printed flow].
  rewrite <- app_assoc. reflexivity.
Qed.

(** X22. A logout that reaches the identity provider forgets everything:
    with a refresh token and an access token stored under different names
    and both revocations answered, [logout] asks for the revocation of
    the refresh token, then of the access token, and removes the two
    tokens and the expiry from the store; nothing is printed. *)
Theorem logout_forgets_the_tokens
    (e : env) (s : state) (rt at_ : json) :
  PAROPT_RT_OPTNAME e <> PAROPT_AT_OPTNAME e ->
  store s !! PAROPT_RT_OPTNAME e = Some rt ->
  truthy rt = true ->
  store s !! PAROPT_AT_OPTNAME e = Some at_ ->
  truthy at_ = true ->
  oauth2_revoke_token e (List.length (revocations s)) rt = Returns tt ->
  oauth2_revoke_token e (S (List.length (revocations s))) at_ = Returns tt ->
  logout e s
  = (Ok tt,
     {| store := delete (PAROPT_AT_EXPIRES_OPTNAME e)
                   (delete (PAROPT_AT_OPTNAME e)
                      (delete (PAROPT_RT_OPTNAME e) (store s)));
        revocations := revocations s ++ [rt; at_];
        printed := printed s;
        flow := flow s |})
  /\ store (snd (logout e s)) !! PAROPT_RT_OPTNAME e = None
  /\ store (snd (logout e s)) !! PAROPT_AT_OPTNAME e = None
  /\ store (snd (logout e s)) !! PAROPT_AT_EXPIRES_OPTNAME e = None.
Proof.
  intros Hne Hrt Trt Hat Tat Hr1 Hr2.
  pose proof (logout_both_revoked e s rt at_ Hne Hrt Trt Hat Tat Hr1 Hr2) as H.
  rewrite H. cbn [snd store]. repeat split.
  - destruct (decide (PAROPT_AT_EXPIRES_OPTNAME e = PAROPT_RT_OPTNAME e)) as [->|].
    + apply lookup_delete_eq.
    + rewrite lookup_delete_ne by congruence.
      rewrite lookup_delete_ne by congruence. apply lookup_delete_eq.
  - destruct (decide (PAROPT_AT_EXPIRES_OPTNAME e = PAROPT_AT_OPTNAME e)) as [->|].
    + apply lookup_delete_eq.
    + rewrite lookup_delete_ne by congruence. apply lookup_delete_eq.
  - apply lookup_delete_eq.
Qed.

Lemma logout_forgets_the_tokens_witness :
  logout e_online s_logged_in
  = (Ok tt,
     {| store := ∅;
        revocations := [JStr "old_rt"; JStr "old_at"];
        printed := [];
        flow := None |}).
Proof.
  destruct (logout_forgets_the_tokens e_online s_logged_in
              (JStr "old_rt") (JStr "old_at")
              ltac:(discriminate) eq_refl eq_refl eq_refl eq_refl
              eq_refl eq_refl) as [H _].
  rewrite H. reflexivity.
Defined.

(** X23. A logout with no token in the store contacts nobody: when
    neither the refresh token nor the access token is stored (or both are
    empty), [logout] prints the two warnings, sends no revocation request
    and removes the expiry. *)
Theorem logout_without_tokens (e : env) (s : state) :
  truthy (default JNull (store s !! PAROPT_RT_OPTNAME e)) = false ->
  truthy (default JNull (store s !! PAROPT_AT_OPTNAME e)) = false ->
  logout e s
  = (Ok tt,
     {| store := delete (PAROPT_AT_EXPIRES_OPTNAME e) (store s);
        revocations := revocations s;
        printed := printed s ++ [no_token_warning (PAROPT_RT_OPTNAME e);
                                 no_token_warning (PAROPT_AT_OPTNAME e)];
        flow := flow s |}).
Proof.
  intros Hrt Hat. rewrite logout_run, logout_token_run. cbv zeta.
  rewrite Hrt. rewrite logout_token_run. cbv zeta.
  cbn [store revocations printed flow]. rewrite Hat.
  unfold set_store. cbn [store revocations printed flow].
  rewrite <- app_assoc. reflexivity.
Qed.

Lemma logout_without_tokens_witness :
  logout e_offline s_empty
  = (Ok tt,
     {| store := ∅;
        revocations := [];
        printed := [no_token_warning "paropt_rt"; no_token_warning "paropt_at"];
        flow := None |}).
Proof.
  rewrite (logout_without_tokens e_offline s_empty eq_refl eq_refl).
  reflexivity.
Defined.

(** X24. A logout interrupted at the second token leaves half a record:
    when the refresh token is revoked and the revocation of the access
    token raises a network error, [logout] has already removed the
    refresh token, and returns with the access token and the expiry still
    stored. *)
Theorem logout_interrupted_at_access_token
    (e : env) (s : state) (rt at_ : json) :
  distinct_names e ->
  store s !! PAROPT_RT_OPTNAME e = Some rt ->
  truthy rt = true ->
  store s !! PAROPT_AT_OPTNAME e = Some at_ ->
  truthy at_ = true ->
  oauth2_revoke_token e (List.length (revocations s)) rt = Returns tt ->
  oauth2_revoke_token e (S (List.length (revocations s))) at_
  = Raises NetworkError ->
  logout e s
  = (Ok tt,
     {| store := delete (PAROPT_RT_OPTNAME e) (store s);
        revocations := revocations s ++ [rt; at_];
        printed := printed s ++ [cancelling_logout];
        flow := flow s |})
  /\ store (snd (logout e s)) !! PAROPT_RT_OPTNAME e = None
  /\ store (snd (logout e s)) !! PAROPT_AT_OPTNAME e = Some at_
  /\ store (snd (logout e s)) !! PAROPT_AT_EXPIRES_OPTNAME e
     = store s !! PAROPT_AT_EXPIRES_OPTNAME e.
Proof.
  intros (Hne & Hne2 & _) Hrt Trt Hat Tat Hr1 Hr2.
  assert (H : logout e s
              = (Ok tt,
                 {| store := delete (PAROPT_RT_OPTNAME e) (store s);
                    revocations := revocations s ++ [rt; at_];
                    printed := printed s ++ [cancelling_logout];
                    flow := flow s |})).
  { rewrite logout_run, logout_token_run. cbv zeta. rewrite Hrt. simpl.
    rewrite Trt, Hr1. rewrite logout_token_run. cbv zeta.
    cbn [store revocations printed flow].
    rewrite lookup_delete_ne by exact Hne. rewrite Hat. simpl.
    rewrite Tat, length_app, Nat.add_1_r, Hr2.
    rewrite <- app_assoc. reflexivity. }
  rewrite H. cbn [snd store]. repeat split.
  - apply lookup_delete_eq.
  - rewrite lookup_delete_ne by exact Hne. exact Hat.
  - rewrite lookup_delete_ne by exact Hne2. reflexivity.
Qed.

Lemma logout_interrupted_at_access_token_witness :
  store (snd (logout e_drops s_logged_in)) !! "paropt_rt" = None
  /\ store (snd (logout e_drops s_logged_in)) !! "paropt_at"
     = Some (JStr "old_at").
Proof.
  destruct (logout_interrupted_at_access_token e_drops s_logged_in
              (JStr "old_rt") (JStr "old_at")
              ltac:(repeat split; discriminate)
              eq_refl eq_refl eq_refl eq_refl eq_refl eq_refl)
    as (_ & H1 & H2 & _).
  split; assumption.
Defined.

Lemma logout_token_subseteq (e : env) (token_opt : string) (s : state) :
  store (snd (logout_token e token_opt s)) ⊆ store s
  /\ flow (snd (logout_token e token_opt s)) = flow s.
Proof.
  rewrite logout_token_run. cbv zeta.
  destruct (truthy (default JNull (store s !! token_opt))); [|split; reflexivity].
  destruct (oauth2_revoke_token e _ _) as [[]|ex]; simpl.
  - split; [apply delete_subseteq|reflexivity].
  - destruct ex; split; reflexivity.
Qed.

(** X25. [logout] only ever removes: whatever the identity provider
    answers, every entry of the store after the call was in the store
    before it with the same value, and no authorization flow is started. *)
Theorem logout_only_removes (e : env) (s : state) :
  (forall (k : string) (v : json),
      store (snd (logout e s)) !! k = Some v -> store s !! k = Some v)
  /\ flow (snd (logout e s)) = flow s.
Proof.
  assert (H : store (snd (logout e s)) ⊆ store s
              /\ flow (snd (logout e s)) = flow s).
  { rewrite logout_run.
    pose proof (logout_token_subseteq e (PAROPT_RT_OPTNAME e) s) as [H1 F1].
    destruct (logout_token e (PAROPT_RT_OPTNAME e) s) as [[[]| | |] s1];
      simpl in *; auto.
    pose proof (logout_token_subseteq e (PAROPT_AT_OPTNAME e) s1) as [H2 F2].
    destruct (logout_token e (PAROPT_AT_OPTNAME e) s1) as [[[]| | |] s2];
      simpl in *; split; try congruence; try (etrans; eassumption).
    etrans; [apply delete_subseteq|]. etrans; eassumption. }
  destruct H as [Hsub Hflow]. split; [|exact Hflow].
  intros k v Hk. exact (lookup_weaken _ _ _ _ Hk Hsub).
Qed.

Lemma logout_only_removes_witness :
  store s_logged_in !! "paropt_at" = Some (JStr "old_at")
  /\ flow (snd (logout e_drops s_logged_in)) = flow s_logged_in.
Proof.
  destruct (logout_only_removes e_drops s_logged_in) as [H F].
  split; [|exact F].
  exact (H "paropt_at" (JStr "old_at") eq_refl).
Defined.

(** ** Storing, then logging out *)

(** X26. Logging out undoes the storing of the tokens: starting from a
    store without the three options, [_store_config] followed by a
    [logout] whose two revocations are answered gives back the store as
    it was, the two tokens having been revoked. *)
Theorem store_then_logout_round_trip
    (e : env) (s : state) (rt at_ expires : json) :
  distinct_names e ->
  store s !! PAROPT_RT_OPTNAME e = None ->
  store s !! PAROPT_AT_OPTNAME e = None ->
  store s !! PAROPT_AT_EXPIRES_OPTNAME e = None ->
  truthy rt = true ->
  truthy at_ = true ->
  oauth2_revoke_token e (List.length (revocations s)) rt = Returns tt ->
  oauth2_revoke_token e (S (List.length (revocations s))) at_ = Returns tt ->
  logout e (snd (_store_config e (token_response rt at_ expires) s))
  = (Ok tt,
     {| store := store s;
        revocations := revocations s ++ [rt; at_];
        printed := printed s;
        flow := flow s |}).
Proof.
  intros (H1 & H2 & H3) Hrt Hat Hex Trt Tat Hr1 Hr2.
  rewrite store_config_run. cbn [snd].
  rewrite (logout_both_revoked e _ rt at_ H1);
    cbn [store revocations printed flow]; try assumption.
  - f_equal. f_equal. apply map_eq. intros k.
    destruct (decide (k = PAROPT_AT_EXPIRES_OPTNAME e)) as [->|Hk3].
    { rewrite lookup_delete_eq. symmetry. exact Hex. }
    rewrite lookup_delete_ne by congruence.
    destruct (decide (k = PAROPT_AT_OPTNAME e)) as [->|Hk2].
    { rewrite lookup_delete_eq. symmetry. exact Hat. }
    rewrite lookup_delete_ne by congruence.
    destruct (decide (k = PAROPT_RT_OPTNAME e)) as [->|Hk1].
    { rewrite lookup_delete_eq. symmetry. exact Hrt. }
    rewrite lookup_delete_ne by congruence.
    rewrite !lookup_insert_ne by congruence. reflexivity.
  - rewrite lookup_insert_ne, lookup_insert_ne, lookup_insert_eq by congruence.
    reflexivity.
  - rewrite lookup_insert_ne, lookup_insert_eq by congruence. reflexivity.
Qed.

Lemma store_then_logout_round_trip_witness :
  logout e_online
    (snd (_store_config e_online
            (token_response (JStr "new_rt") (JStr "new_at") (JInt 1700000000))
            s_empty))
  = (Ok tt,
     {| store := ∅;
        revocations := [JStr "new_rt"; JStr "new_at"];
        printed := [];
        flow := None |}).
Proof.
  exact (store_then_logout_round_trip e_online s_empty
           (JStr "new_rt") (JStr "new_at") (JInt 1700000000)
           ltac:(repeat split; discriminate)
           eq_refl eq_refl eq_refl eq_refl eq_refl eq_refl eq_refl).
Defined.

End AuthMore.
